(** * Token authentication and session gating: a shallow embedding

    The development follows the TypeScript sources of the authentication core:

    - [middleware/auth] ([authenticateRequest], [withAuth]),
    - the edge [middleware] (route gate) with its helpers [setCorsHeaders],
      [getTokenFromRequest] and [isPublicPath],
    - the route handlers [POST /api/auth/login], [POST /api/auth/logout] and
      [GET /api/auth/me],
    - the client hook [useAuthStandalone] ([checkAuth], [login], [logout],
      [setAuthCache]).

    Objects of the framework are records; [Headers], cookie jars and
    [localStorage] are finite maps; [console.*] logging is the only effect
    left out.  Collaborators whose source is not part of the repository
    snapshot ([parseToken], [generateToken], [comparePassword], the user
    collection, [fetch], the clock) are section variables. *)

From Stdlib Require Import ZArith String Ascii List Bool Lia DecimalString.
From stdpp Require Import base strings gmap list.

Set Warnings "-register-all".

Open Scope string_scope.
Open Scope Z_scope.
Open Scope list_scope.

(** ** JavaScript string helpers *)

Module JS.

(** [s.startsWith(p)] *)
Fixpoint startsWith (s p : string) {struct p} : bool :=
  match p with
  | EmptyString => true
  | String b p' =>
      match s with
      | EmptyString => false
      | String a s' => Ascii.eqb a b && startsWith s' p'
      end
  end.

(** [s.endsWith(p)] *)
Definition endsWith (s p : string) : bool :=
  let n := String.length s in
  let m := String.length p in
  if (m <=? n)%nat then String.eqb (String.substring (n - m) m s) p else false.

(** [s.split(sep)] for a one-character separator; never the empty list. *)
Fixpoint split (sep : ascii) (s : string) : list string :=
  match s with
  | EmptyString => [EmptyString]
  | String c rest =>
      if Ascii.eqb c sep then EmptyString :: split sep rest
      else match split sep rest with
           | [] => [String c EmptyString]
           | w :: ws => String c w :: ws
           end
  end.

(** Whether the character occurs in the string. *)
Fixpoint contains (c : ascii) (s : string) : bool :=
  match s with
  | EmptyString => false
  | String c' rest => Ascii.eqb c' c || contains c rest
  end.

(** [s.length]: the number of UTF-16 code units of the text whose UTF-8
    bytes the string holds.  Every byte that is not a continuation byte
    (0x80-0xBF) starts a character and counts one; the lead byte of a
    four-byte sequence (0xF0 and above) counts two, for the surrogate pair. *)
Definition units (c : ascii) : nat :=
  let b := nat_of_ascii c in
  if (b <? 128)%nat then 1%nat
  else if (b <? 192)%nat then 0%nat
  else if (b <? 240)%nat then 1%nat
  else 2%nat.

Fixpoint length (s : string) : nat :=
  match s with
  | EmptyString => 0%nat
  | String c rest => (units c + length rest)%nat
  end.

(** Truthiness of a string: every string but the empty one. *)
Definition truthy (s : string) : bool := negb (String.eqb s "").

(** Truthiness of [string | null | undefined]. *)
Definition truthy_opt (o : option string) : bool :=
  match o with
  | Some s => truthy s
  | None => false
  end.

(** [a || b] on strings-or-undefined, with a string default. *)
Definition or_else (o : option string) (d : string) : string :=
  match o with
  | Some s => if truthy s then s else d
  | None => d
  end.

(** [xs.includes(x)] *)
Definition includes (xs : list string) (x : string) : bool :=
  existsb (String.eqb x) xs.

End JS.

(** ** The framework's data *)

(** [process.env], the two variables the core reads. *)
Record ProcessEnv := {
  NODE_ENV : option string;
  DEBUG_AUTH : option string
}.

(** The condition shared by [debugLog] and the [_debug] payload of [withAuth]:
    [process.env.DEBUG_AUTH === 'true' || process.env.NODE_ENV !== 'production']. *)
Definition debugEnabled (env : ProcessEnv) : bool :=
  bool_decide (DEBUG_AUTH env = Some "true")
  || negb (bool_decide (NODE_ENV env = Some "production")).

Definition isDevelopment (env : ProcessEnv) : bool :=
  bool_decide (NODE_ENV env = Some "development").

Definition isProduction (env : ProcessEnv) : bool :=
  bool_decide (NODE_ENV env = Some "production").

(** JSON values as produced by [JSON.stringify]: a property whose value is
    [undefined] is absent from the object. *)
Inductive Json :=
| JNull
| JBool (b : bool)
| JNum (n : Z)
| JStr (s : string)
| JArr (items : list Json)
| JObj (props : list (string * Json)).

(** Property lookup in a JSON object. *)
Fixpoint assoc (k : string) (props : list (string * Json)) : option Json :=
  match props with
  | [] => None
  | (k', v) :: rest => if String.eqb k k' then Some v else assoc k rest
  end.

Definition prop (k : string) (j : Json) : option Json :=
  match j with
  | JObj props => assoc k props
  | _ => None
  end.

(** An optional property: [k: cond ? v : undefined]. *)
Definition optional_prop (k : string) (o : option Json) : list (string * Json) :=
  match o with
  | Some v => [(k, v)]
  | None => []
  end.

(** A parsed URL: the path and the query parameters ([new URL(p, base)] keeps
    the base's origin, which plays no role here). *)
Record URL := {
  url_pathname : string;
  searchParams : list (string * string)
}.

(** [url.searchParams.set(k, v)] on a URL that has no [k] yet appends. *)
Definition searchParams_set (k v : string) (u : URL) : URL :=
  {| url_pathname := url_pathname u;
     searchParams := List.filter (fun kv => negb (String.eqb (fst kv) k)) (searchParams u)
                       ++ [(k, v)] |}.

(** [NextRequest].  Header names are lower-case, as [Headers] normalises
    them; [url] is the full request URL, [pathname] is [nextUrl.pathname],
    [query] is [new URL(request.url).searchParams]. *)
Record NextRequest := {
  method : string;
  url : string;
  pathname : string;
  headers : gmap string string;
  cookies : gmap string string;
  query : gmap string string
}.

(** Options of [response.cookies.set(name, value, options)]. *)
Record CookieOptions := {
  httpOnly : option bool;
  secure : option bool;
  maxAge : option Z;
  path : option string;
  sameSite : option string;
  expires : option Z
}.

Record ResponseCookie := {
  cookie_value : string;
  cookie_options : CookieOptions
}.

(** What the framework does with a response returned by the middleware.
    The framework encodes this routing instruction in headers of its own
    (the [Location] of a redirect, the [x-middleware-next] marker of a
    pass-through); here it is the [kind] of the response, and [res_headers]
    holds the other headers. *)
Inductive ResponseKind :=
| PassThrough               (* NextResponse.next() *)
| RedirectTo (target : URL) (* NextResponse.redirect(url) *)
| Terminal.                 (* new NextResponse(body, init), NextResponse.json *)

(** [NextResponse]. *)
Record Response := {
  kind : ResponseKind;
  status : Z;
  res_headers : gmap string string;
  res_cookies : gmap string ResponseCookie;
  body : option Json
}.

Module NextResponse.

(** [NextResponse.next()] *)
Definition next : Response :=
  {| kind := PassThrough; status := 200; res_headers := ∅;
     res_cookies := ∅; body := None |}.

(** [NextResponse.redirect(url)] *)
Definition redirect (target : URL) : Response :=
  {| kind := RedirectTo target; status := 307; res_headers := ∅;
     res_cookies := ∅; body := None |}.

(** [new NextResponse(body, { status, headers })] *)
Definition make (b : option Json) (st : Z) (hs : gmap string string) : Response :=
  {| kind := Terminal; status := st; res_headers := hs;
     res_cookies := ∅; body := b |}.

(** [NextResponse.json(body, { status })] *)
Definition json (b : Json) (st : Z) : Response :=
  make (Some b) st {[ "content-type" := "application/json" ]}.

(** [response.headers.set(k, v)] *)
Definition headers_set (k v : string) (r : Response) : Response :=
  {| kind := kind r; status := status r;
     res_headers := <[ k := v ]> (res_headers r);
     res_cookies := res_cookies r; body := body r |}.

(** [response.cookies.set(name, value, options)] *)
Definition cookies_set (name value : string) (o : CookieOptions) (r : Response) : Response :=
  {| kind := kind r; status := status r; res_headers := res_headers r;
     res_cookies := <[ name := {| cookie_value := value; cookie_options := o |} ]> (res_cookies r);
     body := body r |}.

End NextResponse.

(** ** The user store *)

(** A document of the [users] collection, with the fields the core reads. *)
Record User := {
  _id : string;
  username : string;
  role : option string;
  password : option string
}.

(** [const { password, ...userWithoutPassword } = user] *)
Definition userWithoutPassword (u : User) : User :=
  {| _id := _id u; username := username u; role := role u; password := None |}.

(** Outcome of [getMongoDb()] followed by
    [db.collection('users').findOne({ _id: new ObjectId(userId) })]:
    a document, [null], or an exception (connection failure, or
    [new ObjectId] rejecting the identifier). *)
Inductive StoreOutcome :=
| Found (u : User)
| NotFound
| StoreThrows.

(** ** The token codec's interface *)

Record TokenData := {
  userId : string;
  timestamp : Z
}.

(** Outcome of [parseToken(token)]: the payload, [null], or an exception. *)
Inductive ParseOutcome :=
| Parsed (td : TokenData)
| ParseNull
| ParseThrows.

(** ** middleware/auth: the request authenticator and the role authorizer *)

(** [const TOKEN_MAX_AGE_MS = 7 * 24 * 60 * 60 * 1000] *)
Definition TOKEN_MAX_AGE_MS : Z := 7 * 24 * 60 * 60 * 1000.

(** The result object [{ user, error }]. *)
Record AuthResult := {
  user : option User;
  error : option string
}.

Definition auth_fail (msg : string) : AuthResult :=
  {| user := None; error := Some msg |}.

Definition auth_ok (u : User) : AuthResult :=
  {| user := Some u; error := None |}.

(** The request handed to a wrapped handler: [authRequest.user = user]. *)
Record AuthRequest := {
  request : NextRequest;
  request_user : User
}.

(** A value thrown by a handler: an [Error] with its message, or anything else. *)
Inductive Thrown :=
| ErrorObject (message : string)
| OtherValue.

(** [error instanceof Error ? error.message : 'Unknown error'] *)
Definition errorMessage (t : Thrown) : string :=
  match t with
  | ErrorObject m => m
  | OtherValue => "Unknown error"
  end.

Inductive HandlerOutcome :=
| Returns (r : Response)
| Throws (t : Thrown).

(** [request.url.split('?')[0]] *)
Definition basePath (r : NextRequest) : string :=
  match JS.split "?"%char (url r) with
  | p :: _ => p
  | [] => ""
  end.

Section Authenticator.

Variable env : ProcessEnv.
(** [parseToken] of [@/lib/auth]. *)
Variable parseToken : string -> ParseOutcome.
(** The [users] collection, queried by identifier. *)
Variable findOne : string -> StoreOutcome.
(** [Date.now()] *)
Variable now : Z.

(** [authenticateRequest(request)]: the token is read from the [token]
    cookie; the outer [try]/[catch] turns an exception of [parseToken]
    into ['Authentication failed'], the inner one turns an exception of the
    store lookup into ['Database error during authentication']. *)
Definition authenticateRequest (r : NextRequest) : AuthResult :=
  let token := cookies r !! "token" in
  match token with
  | None => auth_fail "No token provided"
  | Some token =>
      if negb (JS.truthy token) then auth_fail "No token provided"
      else
        match parseToken token with
        | ParseThrows => auth_fail "Authentication failed"
        | ParseNull => auth_fail "Invalid token format"
        | Parsed tokenData =>
            let tokenAge := now - timestamp tokenData in
            if tokenAge >? TOKEN_MAX_AGE_MS then auth_fail "Token expired"
            else
              match findOne (userId tokenData) with
              | StoreThrows => auth_fail "Database error during authentication"
              | NotFound => auth_fail "User not found"
              | Found u => auth_ok (userWithoutPassword u)
              end
        end
  end.

(** The body of the 401 response of [withAuth]. *)
Definition unauthorizedBody (err : option string) : Json :=
  JObj [("success", JBool false);
        ("message", JStr ("Unauthorized: " +:+ JS.or_else err "No user found"))].

Definition forbiddenBody : Json :=
  JObj [("success", JBool false);
        ("message", JStr "Forbidden: Insufficient permissions")].

(** The body of the 500 response of [withAuth]: [_debug] is present exactly
    when [debugEnabled]. *)
Definition handlerErrorBody (r : NextRequest) (t : Thrown) : Json :=
  JObj ([("success", JBool false);
         ("message", JStr "Internal server error")]
        ++ optional_prop "_debug"
             (if debugEnabled env
              then Some (JObj [("error", JStr (errorMessage t));
                               ("path", JStr (basePath r))])
              else None)).

(** [roles.includes(user.role)]; a document without [role] matches nothing. *)
Definition hasRole (roles : list string) (u : User) : bool :=
  match role u with
  | Some ro => JS.includes roles ro
  | None => false
  end.

(** [withAuth(handler, roles)] applied to a request. *)
Definition withAuth (handler : AuthRequest -> HandlerOutcome) (roles : list string)
    (r : NextRequest) : Response :=
  let res := authenticateRequest r in
  match JS.truthy_opt (error res), user res with
  | true, _ | _, None =>
      NextResponse.json (unauthorizedBody (error res)) 401
  | false, Some u =>
      if (0 <? Z.of_nat (List.length roles)) && negb (hasRole roles u)
      then NextResponse.json forbiddenBody 403
      else
        match handler {| request := r; request_user := u |} with
        | Returns result => result
        | Throws t => NextResponse.json (handlerErrorBody r t) 500
        end
  end.

(** The default of the [roles] parameter: [['user']]. *)
Definition defaultRoles : list string := ["user"].

(** *** The wrapped route handlers *)

(** [POST /api/auth/logout]: the handler clears the [token] cookie. *)
Definition logoutCookieOptions : CookieOptions :=
  {| httpOnly := Some true;
     secure := Some (isProduction env);
     maxAge := Some 0;
     path := Some "/";
     sameSite := Some "lax";
     expires := None |}.

Definition logoutHandler (_ : AuthRequest) : HandlerOutcome :=
  Returns
    (NextResponse.cookies_set "token" "" logoutCookieOptions
       (NextResponse.json
          (JObj [("success", JBool true);
                 ("message", JStr "Đăng xuất thành công")])
          200)).

Definition logout_POST : NextRequest -> Response :=
  withAuth logoutHandler defaultRoles.

(** [GET /api/auth/me]: the handler answers with the resolved user (only
    the modelled fields are listed; the others are defaults of the same
    shape). *)
Definition userResponse (u : User) : Json :=
  JObj [("id", JStr (_id u));
        ("username", JStr (username u));
        ("role", JStr (JS.or_else (role u) "user"))].

Definition meHandler (a : AuthRequest) : HandlerOutcome :=
  Returns
    (NextResponse.json
       (JObj [("success", JBool true);
              ("user", userResponse (request_user a))])
       200).

Definition me_GET : NextRequest -> Response :=
  withAuth meHandler defaultRoles.

End Authenticator.

(** ** The route gate (edge middleware) *)

(** [allowedOrigins].  The array literal of the source lacks the commas after
    its fourth and fifth entries; the seven strings are taken as the seven
    elements the layout intends. *)
Definition allowedOrigins : list string :=
  [ "https://inal-hsc1.com";
    "https://www.inal-hsc1.com";
    "https://london-hsc.com";
    "https://www.london-hsc.com";
    "https://family-neon.vercel.app";
    "http://localhost:3000";
    "http://127.0.0.1:3000" ].

(** [securityHeaders], in the order of [Object.entries]. *)
Definition securityHeaders : list (string * string) :=
  [ ("X-Content-Type-Options", "nosniff");
    ("X-Frame-Options", "DENY");
    ("X-XSS-Protection", "1; mode=block");
    ("Referrer-Policy", "strict-origin-when-cross-origin");
    ("Permissions-Policy", "camera=(), microphone=(), geolocation=()") ].

(** [Object.entries(securityHeaders).forEach(([k, v]) => response.headers.set(k, v))] *)
Definition setSecurityHeaders (response : Response) : Response :=
  fold_left (fun r kv => NextResponse.headers_set (fst kv) (snd kv) r)
            securityHeaders response.

(** [setCorsHeaders(response, origin)] *)
Definition setCorsHeaders (response : Response) (origin : string) : Response :=
  let response := NextResponse.headers_set "Access-Control-Allow-Origin" origin response in
  let response := NextResponse.headers_set "Access-Control-Allow-Methods"
                    "GET, POST, PUT, DELETE, OPTIONS" response in
  let response := NextResponse.headers_set "Access-Control-Allow-Headers"
                    "Content-Type, Authorization, X-Requested-With, Accept" response in
  let response := NextResponse.headers_set "Access-Control-Allow-Credentials" "true" response in
  let response := NextResponse.headers_set "Access-Control-Max-Age" "86400" response in
  let response := NextResponse.headers_set "Vary" "Origin" response in
  response.

(** The names of the headers [setCorsHeaders] writes. *)
Definition corsHeaderNames : list string :=
  [ "Access-Control-Allow-Origin"; "Access-Control-Allow-Methods";
    "Access-Control-Allow-Headers"; "Access-Control-Allow-Credentials";
    "Access-Control-Max-Age"; "Vary" ].

(** [getTokenFromRequest(request)]: a header that starts with ['Bearer ']
    decides alone (whatever [split(' ')[1]] is, the empty string included),
    then a non-empty [token] cookie, then the [token] query parameter. *)
Definition getTokenFromRequest (r : NextRequest) : option string :=
  let authHeader := headers r !! "authorization" in
  let bearer :=
    match authHeader with
    | Some h => JS.startsWith h "Bearer "
    | None => false
    end in
  if bearer then
    match authHeader with
    | Some h => JS.split " "%char h !! 1%nat
    | None => None
    end
  else
    let cookie := cookies r !! "token" in
    if JS.truthy_opt cookie then cookie
    else
      let tokenParam := query r !! "token" in
      tokenParam.

(** [publicPaths.some(path => pathname === path || pathname.startsWith(`${path}/`))] *)
Definition matchesPrefix (pathname : string) (paths : list string) : bool :=
  existsb (fun p => String.eqb pathname p || JS.startsWith pathname (p +:+ "/")) paths.

(** [isPublicPath(pathname)] *)
Definition isPublicPath (env : ProcessEnv) (pathname : string) : bool :=
  let publicPaths :=
    [ "/"; "/login"; "/register"; "/forgot-password"; "/reset-password";
      "/api/auth"; "/api/settings"; "/api/public";
      "/_next"; "/favicon.ico"; "/icons"; "/images"; "/fonts";
      "/api/rates"; "/api/markets"; "/api/announcements" ]
    ++ (if isDevelopment env
        then [ "/api/__coverage__"; "/__nextjs_original-stack-frame"; "/_error"; "/_webpack" ]
        else []) in
  matchesPrefix pathname publicPaths.

(** Outcome of the [fetch] of the verification endpoint: a response with its
    [ok] flag, or a rejected promise. *)
Inductive FetchOutcome :=
| FetchResponse (ok : bool)
| FetchThrows.

(** A statement of the middleware body either returns a response or falls
    through with the current value of the local variable [response]. *)
Inductive Flow :=
| Return (r : Response)
| Continue (response : Response).

Definition Stmt := Response -> Flow.

(** Sequencing of a statement with the rest of the function body. *)
Definition andThen (s : Stmt) (k : Response -> Response) : Response -> Response :=
  fun response =>
    match s response with
    | Return r => r
    | Continue response' => k response'
    end.

Declare Scope stmt_scope.
Delimit Scope stmt_scope with stmt.
Notation "s ;;; k" := (andThen s k) (at level 100, right associativity) : stmt_scope.

(** [if (c) return response;] *)
Definition returnResponseIf (c : bool) : Stmt :=
  fun response => if c then Return response else Continue response.

(** [if (c) return r;] *)
Definition returnIf (c : bool) (r : Response) : Stmt :=
  fun response => if c then Return r else Continue response.

(** [`${token}`] for [string | null] *)
Definition template (token : option string) : string :=
  match token with
  | Some t => t
  | None => "null"
  end.

(** The body of the 403 responses: [{ success, message, allowedOrigins }]. *)
Definition corsRejectionBody : Json :=
  JObj [("success", JBool false);
        ("message", JStr "Not allowed by CORS");
        ("allowedOrigins", JArr (map JStr allowedOrigins))].

(** [new URL('/login', request.url)] *)
Definition loginURL : URL := {| url_pathname := "/login"; searchParams := [] |}.

(** [new URL('/', request.url)] *)
Definition homeURL : URL := {| url_pathname := "/"; searchParams := [] |}.

(** [{ path: '/', expires: new Date(0) }] *)
Definition clearCookieOptions : CookieOptions :=
  {| httpOnly := None; secure := None; maxAge := None;
     path := Some "/"; sameSite := None; expires := Some 0 |}.

Section RouteGate.

Variable env : ProcessEnv.
(** [fetch(new URL('/api/auth/verify', request.url), { headers: { Authorization } })],
    as a function of the request and of the [Authorization] header sent. *)
Variable fetchVerify : NextRequest -> string -> FetchOutcome.

Section Body.

Variable request : NextRequest.

(** [request.headers.get('origin') || ''] *)
Definition requestOrigin : string := JS.or_else (headers request !! "origin") "".

Definition isAllowedOrigin : bool :=
  JS.includes allowedOrigins requestOrigin
  || (isDevelopment env && JS.startsWith requestOrigin "http://localhost").

(** The preflight answer: [new NextResponse(null, { status: 204 })] with
    the CORS headers. *)
Definition preflightResponse : Response :=
  setCorsHeaders (NextResponse.make None 204 ∅) requestOrigin.

(** The initial value of the local variable [response]. *)
Definition initialResponse : Response :=
  if isAllowedOrigin
  then setCorsHeaders NextResponse.next requestOrigin
  else NextResponse.next.

(** Skip authentication for public paths and static resources. *)
Definition publicPathStmt : Stmt :=
  returnResponseIf
    (isPublicPath env (pathname request)
     || JS.startsWith (pathname request) "/_next/"
     || JS.startsWith (pathname request) "/static/"
     || JS.startsWith (pathname request) "/public/"
     || String.eqb (pathname request) "/favicon.ico").

(** [const token = getTokenFromRequest(request)] *)
Definition token : option string := getTokenFromRequest request.

(** API routes pass through. *)
Definition apiStmt : Stmt :=
  returnResponseIf (JS.startsWith (pathname request) "/api/").

(** No token: redirect to the login page, unless already heading there. *)
Definition noTokenStmt : Stmt :=
  fun response =>
    if negb (JS.truthy_opt token) then
      if negb (JS.startsWith (pathname request) "/login") then
        let loginUrl := searchParams_set "returnUrl" (pathname request) loginURL in
        Return (NextResponse.redirect loginUrl)
      else Return response
    else Continue response.

(** No verification for the login pages. *)
Definition loginPageStmt : Stmt :=
  returnResponseIf
    (JS.startsWith (pathname request) "/login" || JS.startsWith (pathname request) "/auth/").

(** The [try]/[catch] around the verification call.  In the [!ok] branch
    the cookie is set on the local [response], and the value returned is
    the fresh object of [NextResponse.redirect]. *)
Definition verifyStmt : Stmt :=
  fun response =>
    match fetchVerify request ("Bearer " +:+ template token) with
    | FetchResponse ok =>
        if negb ok then
          let loginUrl := searchParams_set "returnUrl" (pathname request) loginURL in
          let loginUrl := searchParams_set "expired" "true" loginUrl in
          let response := NextResponse.cookies_set "token" "" clearCookieOptions response in
          Return (NextResponse.redirect loginUrl)
        else Return response
    | FetchThrows => Return response
    end.

(** The statements that follow the [try]/[catch] in the source. *)

Definition optionsAgainStmt : Stmt :=
  returnResponseIf (String.eqb (method request) "OPTIONS").

Definition originBlockStmt : Stmt :=
  returnIf (JS.truthy requestOrigin && negb isAllowedOrigin)
    (NextResponse.make (Some corsRejectionBody) 403
       {[ "Content-Type" := "application/json" ]}).

Definition publicApiStmt : Stmt :=
  returnResponseIf (existsb (fun route => JS.startsWith (pathname request) route) ["/api/auth/me"]).

Definition apiCorsStmt : Stmt :=
  fun response =>
    if JS.startsWith (pathname request) "/api/" then
      if JS.truthy requestOrigin && negb isAllowedOrigin then
        Return (NextResponse.make (Some corsRejectionBody) 403
                  (list_to_map (("Content-Type", "application/json") :: securityHeaders)))
      else
        let response := setSecurityHeaders response in
        let response := if isAllowedOrigin
                        then setCorsHeaders response requestOrigin
                        else response in
        Return response
    else Continue response.

Definition staticFilesStmt : Stmt :=
  returnResponseIf
    (JS.startsWith (pathname request) "/_next/"
     || String.eqb (pathname request) "/favicon.ico"
     || String.eqb (pathname request) "/site.webmanifest"
     || JS.startsWith (pathname request) "/images/"
     || JS.startsWith (pathname request) "/icons/"
     || JS.endsWith (pathname request) ".png"
     || JS.endsWith (pathname request) ".jpg"
     || JS.endsWith (pathname request) ".jpeg"
     || JS.endsWith (pathname request) ".gif"
     || JS.endsWith (pathname request) ".svg"
     || JS.endsWith (pathname request) ".css"
     || JS.endsWith (pathname request) ".js").

Definition isPublicRoute : bool :=
  matchesPrefix (pathname request) ["/"; "/login"; "/register"].

Definition callbackRedirectStmt : Stmt :=
  returnIf (negb (JS.truthy_opt token) && negb isPublicRoute)
    (NextResponse.redirect (searchParams_set "callbackUrl" (pathname request) loginURL)).

Definition authPageRedirectStmt : Stmt :=
  returnIf (JS.truthy_opt token
            && (String.eqb (pathname request) "/login" || String.eqb (pathname request) "/register"))
    (NextResponse.redirect homeURL).

(** The last two statements: security headers, [return response]. *)
Definition finalStmt (response : Response) : Response :=
  setSecurityHeaders response.

(** [middleware(request)] *)
Definition middleware : Response :=
  if String.eqb (method request) "OPTIONS" then preflightResponse
  else
    (publicPathStmt ;;;
     apiStmt ;;;
     noTokenStmt ;;;
     loginPageStmt ;;;
     verifyStmt ;;;
     optionsAgainStmt ;;;
     originBlockStmt ;;;
     publicApiStmt ;;;
     apiCorsStmt ;;;
     staticFilesStmt ;;;
     callbackRedirectStmt ;;;
     authPageRedirectStmt ;;;
     finalStmt)%stmt initialResponse.

End Body.

End RouteGate.

(** The requests for which [middleware] gets to the verification call:
    not a preflight, not a public path, not an API path, with a token, and
    not a login or [/auth/] page. *)
Definition reachesVerification (env : ProcessEnv) (r : NextRequest) : bool :=
  negb (String.eqb (method r) "OPTIONS")
  && negb (isPublicPath env (pathname r)
           || JS.startsWith (pathname r) "/_next/"
           || JS.startsWith (pathname r) "/static/"
           || JS.startsWith (pathname r) "/public/"
           || String.eqb (pathname r) "/favicon.ico")
  && negb (JS.startsWith (pathname r) "/api/")
  && JS.truthy_opt (getTokenFromRequest r)
  && negb (JS.startsWith (pathname r) "/login" || JS.startsWith (pathname r) "/auth/").

(** The redirect target of a rejected token:
    [/login?returnUrl=<pathname>&expired=true]. *)
Definition expiredLoginURL (r : NextRequest) : URL :=
  {| url_pathname := "/login";
     searchParams := [("returnUrl", pathname r); ("expired", "true")] |}.

(** ** The client hook [useAuthStandalone] *)

Definition USER_STORAGE_KEY : string := "auth_user".
Definition LAST_CHECKED_KEY : string := "auth_last_checked".
Definition AUTH_CACHE_KEY : string := "auth_user_cache".

(** [const CACHE_DURATION = 30 * 24 * 60 * 60 * 1000] *)
Definition CACHE_DURATION : Z := 30 * 24 * 60 * 60 * 1000.

(** The state the hook closes over: the React state cells, [localStorage]
    (each stored text is represented by the JSON value it spells) and the
    last [router.push]. *)
Record ClientState := {
  client_user : option Json;
  isLoading : bool;
  lastChecked : Z;
  localStorage : gmap string Json;
  pushed : option string
}.

Definition setUser (u : option Json) (st : ClientState) : ClientState :=
  {| client_user := u; isLoading := isLoading st; lastChecked := lastChecked st;
     localStorage := localStorage st; pushed := pushed st |}.

Definition setIsLoading (b : bool) (st : ClientState) : ClientState :=
  {| client_user := client_user st; isLoading := b; lastChecked := lastChecked st;
     localStorage := localStorage st; pushed := pushed st |}.

Definition setLastChecked (t : Z) (st : ClientState) : ClientState :=
  {| client_user := client_user st; isLoading := isLoading st; lastChecked := t;
     localStorage := localStorage st; pushed := pushed st |}.

Definition localStorage_setItem (k : string) (v : Json) (st : ClientState) : ClientState :=
  {| client_user := client_user st; isLoading := isLoading st; lastChecked := lastChecked st;
     localStorage := <[ k := v ]> (localStorage st); pushed := pushed st |}.

Definition localStorage_removeItem (k : string) (st : ClientState) : ClientState :=
  {| client_user := client_user st; isLoading := isLoading st; lastChecked := lastChecked st;
     localStorage := delete k (localStorage st); pushed := pushed st |}.

Definition router_push (p : string) (st : ClientState) : ClientState :=
  {| client_user := client_user st; isLoading := isLoading st; lastChecked := lastChecked st;
     localStorage := localStorage st; pushed := Some p |}.

(** [JSON.stringify({ data: u, timestamp: t })] *)
Definition cacheEntry (u : option Json) (t : Z) : Json :=
  JObj (optional_prop "data" u ++ [("timestamp", JNum t)]).

(** Truthiness of a JSON value read from a response body. *)
Definition json_truthy (o : option Json) : bool :=
  match o with
  | None | Some JNull | Some (JBool false) | Some (JNum 0) | Some (JStr "") => false
  | Some _ => true
  end.

(** [setAuthCache(userData)] at time [now] *)
Definition setAuthCache (now : Z) (userData : option Json) (st : ClientState) : ClientState :=
  if json_truthy userData
  then localStorage_setItem AUTH_CACHE_KEY (cacheEntry userData now) st
  else localStorage_removeItem AUTH_CACHE_KEY st.

(** Outcome of a [fetch] followed by [response.json()]: a response with its
    [ok] flag and parsed body, or an exception (network error, or a body that
    is not JSON). *)
Inductive FetchJson :=
| JsonResponse (ok : bool) (data : Json)
| FetchFails.

(** [checkAuth(force)] at time [currentTime], with the outcome of the call to
    [/api/auth/me] should it be made.  A body that is [null] makes
    [data.success] (or, for a response that is not OK, [data.message]) raise
    inside the [try]: the [catch] path, like a network error. *)
Definition checkAuth (force : bool) (currentTime : Z) (me : FetchJson)
    (st : ClientState) : ClientState :=
  let cacheTimeout := 5 * 60 * 1000 in
  if negb force && negb (lastChecked st =? 0)
     && (currentTime - lastChecked st <? cacheTimeout)
  then st
  else
    (* try *)
    let isInitialCheck := lastChecked st =? 0 in
    let st := if isInitialCheck then setIsLoading true st else st in
    let st :=
      match me with
      | JsonResponse _ JNull => st
      | JsonResponse ok data =>
          if ok && json_truthy (prop "success" data) then
            let st := setUser (prop "user" data) st in
            localStorage_setItem USER_STORAGE_KEY
              (cacheEntry (prop "user" data) currentTime) st
          else
            let st := setUser None st in
            localStorage_removeItem USER_STORAGE_KEY st
      | FetchFails => st
      end in
    (* finally *)
    let st := setIsLoading false st in
    let st := setLastChecked currentTime st in
    localStorage_setItem LAST_CHECKED_KEY (JNum currentTime) st.

(** Whether [checkAuth] calls the endpoint. *)
Definition reachesNetwork (force : bool) (currentTime : Z) (st : ClientState) : bool :=
  negb (negb force && negb (lastChecked st =? 0)
        && (currentTime - lastChecked st <? 5 * 60 * 1000)).

(** [login(username, password)] at time [now], with the outcome of the call
    to [/api/auth/login]; the result object's [success] comes second. *)
Definition login (now : Z) (res : FetchJson) (st : ClientState) : ClientState * bool :=
  let st := setIsLoading true st in
  let '(st, success) :=
    match res with
    | JsonResponse _ data =>
        if json_truthy (prop "success" data) then
          let st := setAuthCache now (prop "user" data) st in
          let st := setUser (prop "user" data) st in
          (st, true)
        else (st, false)
    | FetchFails => (st, false)
    end in
  (setIsLoading false st, success).

(** [logout()]: the local state is cleared first; the outcome of the server
    call does not matter. *)
Definition logout (now : Z) (st : ClientState) : ClientState :=
  let st := setAuthCache now None st in
  let st := setUser None st in
  let st := setLastChecked 0 st in
  router_push "/login" st.

(** ** The token codec *)

Module TokenCodec.

Section Codec.

(** The keyed signature of a payload under the server secret. *)
Variable sign : string -> string.

Definition decimal (z : Z) : string := DecimalString.NilZero.string_of_int (Z.to_int z).

Definition ofDecimal (s : string) : option Z :=
  option_map Z.of_int (DecimalString.NilZero.int_of_string s).

(** The signed content: subject and issue time. *)
Definition payload (subject : string) (issuedAt : Z) : string :=
  subject +:+ "." +:+ decimal issuedAt.

(** Modelled from the spec: [generateToken] of [@/lib/auth] is not part of
    the sources.  "issue(subject) -> token: produces a signed token embedding
    subject and current time." *)
Definition generateToken (subject : string) (now : Z) : string :=
  payload subject now +:+ "." +:+ sign (payload subject now).

(** The three fields of a well-formed token string, before any check of the
    signature. *)
Definition decode (token : string) : option (string * Z * string) :=
  match JS.split "."%char token with
  | [subject; issuedAt; signature] =>
      match ofDecimal issuedAt with
      | Some t => Some (subject, t, signature)
      | None => None
      end
  | _ => None
  end.

(** Whether the signature field of a token is the signature of its content. *)
Definition signatureValid (token : string) : bool :=
  match decode token with
  | Some (subject, issuedAt, signature) =>
      String.eqb signature (sign (payload subject issuedAt))
  | None => false
  end.

(** Modelled from the spec: [parseToken] of [@/lib/auth] is not part of the
    sources.  "parse(token) -> {subject, issuedAt} | invalid: verifies
    signature; fails (treated as invalid, not a crash) on malformed input,
    signature mismatch, or decoding error." *)
Definition parseToken (token : string) : ParseOutcome :=
  match decode token with
  | Some (subject, issuedAt, signature) =>
      if String.eqb signature (sign (payload subject issuedAt))
      then Parsed {| userId := subject; timestamp := issuedAt |}
      else ParseNull
  | None => ParseNull
  end.

End Codec.

End TokenCodec.

(** ** [POST /api/auth/login] *)

Section LoginRoute.

Variable env : ProcessEnv.
(** [db.collection('users').findOne({ username })] *)
Variable findByUsername : string -> StoreOutcome.
(** [comparePassword(password, user.password)] of [@/lib/auth] *)
Variable comparePassword : string -> option string -> bool.
(** [generateToken(userId)] of [@/lib/auth], with the clock it reads. *)
Variable generateToken : string -> Z -> string.
Variable now : Z.

Definition loginFailure (msg : string) (st : Z) : Response :=
  NextResponse.json (JObj [("success", JBool false); ("message", JStr msg)]) st.

(** [Math.floor(TOKEN_MAX_AGE_MS / 1000)] *)
Definition TOKEN_MAX_AGE_SEC : Z := TOKEN_MAX_AGE_MS / 1000.

Definition tokenCookieOptions : CookieOptions :=
  {| httpOnly := Some (isProduction env);
     secure := Some (isProduction env);
     maxAge := Some TOKEN_MAX_AGE_SEC;
     path := Some "/";
     sameSite := Some "lax";
     expires := None |}.

Definition debugCookieOptions : CookieOptions :=
  {| httpOnly := Some false;
     secure := Some false;
     maxAge := Some (7 * 24 * 60 * 60);
     path := Some "/";
     sameSite := None;
     expires := None |}.

(** The handler, on the [username] and [password] of the request body (of
    the [user] object of the answer only the modelled fields are listed). *)
Definition login_POST (username_ password_ : option string) : Response :=
  match username_, password_ with
  | Some uname, Some pw =>
      if negb (JS.truthy uname) || negb (JS.truthy pw)
      then loginFailure "Tên đăng nhập và mật khẩu là bắt buộc" 400
      else
        match findByUsername uname with
        | StoreThrows => loginFailure "Lỗi hệ thống" 500
        | NotFound => loginFailure "Tên đăng nhập hoặc mật khẩu không đúng" 401
        | Found u =>
            if negb (comparePassword pw (password u))
            then loginFailure "Tên đăng nhập hoặc mật khẩu không đúng" 401
            else
              let token := generateToken (_id u) now in
              let response :=
                NextResponse.json
                  (JObj [("success", JBool true);
                         ("user", JObj [("id", JStr (_id u));
                                        ("username", JStr (username u));
                                        ("role", JStr (JS.or_else (role u) "user"))])])
                  200 in
              let response := NextResponse.cookies_set "token" token tokenCookieOptions response in
              if negb (isProduction env)
              then NextResponse.cookies_set "debug_token" "exists" debugCookieOptions response
              else response
        end
  | _, _ => loginFailure "Tên đăng nhập và mật khẩu là bắt buộc" 400
  end.

End LoginRoute.

(** ** A concrete deployment, for evaluating the code on inputs *)

Module Deployment.

(** A toy keyed checksum standing for the signature primitive. *)
Definition checksum (s : string) : Z :=
  fold_left (fun h c => (h * 31 + Z.of_nat (nat_of_ascii c)) mod 1000003)
            (list_ascii_of_string s) 7.

Definition sign (content : string) : string :=
  TokenCodec.decimal (checksum ("server-secret:" +:+ content)).

Definition parseToken : string -> ParseOutcome := TokenCodec.parseToken sign.
Definition generateToken : string -> Z -> string := TokenCodec.generateToken sign.

(** The [users] collection. *)
Definition u1 : User :=
  {| _id := "64b7f0c2a1d2e3f4a5b6c7d8"; username := "u1";
     role := Some "user"; password := Some "hash-of-Test@12345" |}.

Definition users : list User := [u1].

Definition findOne (id : string) : StoreOutcome :=
  match List.find (fun u => String.eqb (_id u) id) users with
  | Some u => Found u
  | None => NotFound
  end.

Definition findByUsername (name : string) : StoreOutcome :=
  match List.find (fun u => String.eqb (username u) name) users with
  | Some u => Found u
  | None => NotFound
  end.

(** A store whose every lookup fails. *)
Definition brokenStore (_ : string) : StoreOutcome := StoreThrows.

Definition comparePassword (pw : string) (hash : option string) : bool :=
  bool_decide (hash = Some ("hash-of-" +:+ pw)).

Definition production : ProcessEnv :=
  {| NODE_ENV := Some "production"; DEBUG_AUTH := None |}.

Definition productionDebug : ProcessEnv :=
  {| NODE_ENV := Some "production"; DEBUG_AUTH := Some "true" |}.

(** A request with the given method, path, headers and cookies. *)
Definition mkRequest (m p : string) (hs cs : gmap string string) : NextRequest :=
  {| method := m; url := "https://inal-hsc1.com" +:+ p; pathname := p;
     headers := hs; cookies := cs; query := ∅ |}.

(** The session of [u1]: a token issued at login. *)
Definition issuedAt : Z := 1700000000000.

Definition sessionToken : string := generateToken (_id u1) issuedAt.

Definition meRequest : NextRequest :=
  mkRequest "GET" "/api/auth/me" ∅ {[ "token" := sessionToken ]}.

Definition logoutRequest : NextRequest :=
  mkRequest "POST" "/api/auth/logout" ∅ {[ "token" := sessionToken ]}.

(** The same token, presented in the [Authorization] header only. *)
Definition bearerOnlyRequest : NextRequest :=
  mkRequest "GET" "/api/auth/me" {[ "authorization" := "Bearer " +:+ sessionToken ]} ∅.

(** A token of [u1] stamped at time 1000 whose signature field is wrong. *)
Definition forgedToken : string := "64b7f0c2a1d2e3f4a5b6c7d8.1000.bad".

Definition forgedRequest : NextRequest :=
  mkRequest "GET" "/api/auth/me" ∅ {[ "token" := forgedToken ]}.

(** A logout request without any cookie. *)
Definition anonymousLogout : NextRequest :=
  mkRequest "POST" "/api/auth/logout" ∅ ∅.

(** A handler that fails with an internal error text. *)
Definition internalText : string := "connect ECONNREFUSED 10.0.0.5:27017".

Definition throwingHandler (_ : AuthRequest) : HandlerOutcome :=
  Throws (ErrorObject internalText).

(** Requests to the route gate. *)
Definition crossOriginApiRequest : NextRequest :=
  mkRequest "GET" "/api/deposits" {[ "origin" := "https://evil.example" ]} ∅.

Definition preflightRequest : NextRequest :=
  mkRequest "OPTIONS" "/api/deposits" {[ "origin" := "https://inal-hsc1.com" ]} ∅.

Definition homeRequest : NextRequest := mkRequest "GET" "/" ∅ ∅.

Definition dashboardRequest : NextRequest :=
  mkRequest "GET" "/dashboard" ∅ {[ "token" := sessionToken ]}.

Definition verifyRejects (_ : NextRequest) (_ : string) : FetchOutcome := FetchResponse false.
Definition verifyAccepts (_ : NextRequest) (_ : string) : FetchOutcome := FetchResponse true.
Definition verifyUnreachable (_ : NextRequest) (_ : string) : FetchOutcome := FetchThrows.

(** The browser: a fresh tab, the body of a successful login, the body of a
    401 answer of [/api/auth/me]. *)
Definition freshClient : ClientState :=
  {| client_user := None; isLoading := true; lastChecked := 0;
     localStorage := ∅; pushed := None |}.

Definition clientUser : Json :=
  JObj [("id", JStr (_id u1)); ("username", JStr "u1"); ("role", JStr "user")].

Definition loginOk : FetchJson :=
  JsonResponse true (JObj [("success", JBool true); ("user", clientUser)]).

Definition meUnauthorized : FetchJson :=
  JsonResponse false
    (JObj [("success", JBool false); ("message", JStr "Unauthorized: Token expired")]).

End Deployment.

(** ** More of the client hook *)

(** [getAuthCache()]: the parsed entry, or [null] when there is none.  The
    age of the entry is logged and not tested. *)
Definition getAuthCache (st : ClientState) : option Json :=
  localStorage st !! AUTH_CACHE_KEY.

(** [isAuthenticated()]: [!!user] *)
Definition isAuthenticated (st : ClientState) : bool :=
  json_truthy (client_user st).

(** [isAdmin()]: [user?.role === 'admin'] *)
Definition isAdmin (st : ClientState) : bool :=
  match client_user st with
  | Some u =>
      match prop "role" u with
      | Some (JStr r) => String.eqb r "admin"
      | _ => false
      end
  | None => false
  end.

(** [requiresAuth(path)] *)
Definition requiresAuth (path : string) : bool :=
  if negb (JS.truthy path) then false
  else
    let publicPaths :=
      [ "/"; "/login"; "/auth/login"; "/register"; "/auth/register";
        "/static"; "/public"; "/api"; "/favicon.ico"; "/_next";
        "/images"; "/assets" ] in
    let isPublic :=
      existsb (fun p => String.eqb path p || JS.startsWith path p) publicPaths in
    negb isPublic.

(** The two refs of the hook that [handleAuthRedirect] reads and writes. *)
Record RedirectRefs := {
  lastPathRef : string;
  lastRedirectTimeRef : Z
}.

(** [handleAuthRedirect(path)] at time [now]. *)
Definition handleAuthRedirect (now : Z) (path : string)
    (st : ClientState) (refs : RedirectRefs) : ClientState * RedirectRefs :=
  if negb (JS.truthy path) then (st, refs)
  else if isLoading st then (st, refs)
  else if String.eqb path (lastPathRef refs) then (st, refs)
  else
    let redirectCooldown := 1000 in
    if now - lastRedirectTimeRef refs <? redirectCooldown then (st, refs)
    else
      let refs := {| lastPathRef := path;
                     lastRedirectTimeRef := lastRedirectTimeRef refs |} in
      let isLoginPath := String.eqb path "/login" || String.eqb path "/auth/login" in
      let isRegisterPath := String.eqb path "/register" || String.eqb path "/auth/register" in
      let isAuthPath := isLoginPath || isRegisterPath || JS.startsWith path "/auth/" in
      let needsRedirect := requiresAuth path && negb (isAuthenticated st) in
      if isAuthenticated st && isAuthPath then
        (router_push "/" st,
         {| lastPathRef := lastPathRef refs; lastRedirectTimeRef := now |})
      else if needsRedirect then
        (router_push "/login" st,
         {| lastPathRef := lastPathRef refs; lastRedirectTimeRef := now |})
      else (st, refs).

(** ** The [ProtectedRoute] component *)

Inductive RequiredRole := RoleAdmin | RoleUser.

(** What the component renders. *)
Inductive Rendered :=
| Spinner
| Nothing
| Children.

Section ProtectedRoute.

(** [encodeURIComponent] *)
Variable encodeURIComponent : string -> string.

Variable requiredRole : RequiredRole.
Variable redirectTo : option string.
(** [usePathname()] *)
Variable pathname_ : string.

(** The effect: the [router.push] it issues, if any. *)
Definition ProtectedRoute_effect (st : ClientState) : option string :=
  if negb (isLoading st) then
    if negb (isAuthenticated st) then
      let callbackUrl := JS.or_else redirectTo pathname_ in
      let loginUrl :=
        "/login" +:+ (if JS.truthy callbackUrl
                      then "?callbackUrl=" +:+ encodeURIComponent callbackUrl
                      else "") in
      Some loginUrl
    else if match requiredRole with RoleAdmin => negb (isAdmin st) | RoleUser => false end
    then Some "/"
    else if match requiredRole with
            | RoleUser => isAdmin st && JS.startsWith pathname_ "/user"
            | RoleAdmin => false
            end
    then Some "/admin"
    else None
  else None.

(** The render. *)
Definition ProtectedRoute_render (st : ClientState) : Rendered :=
  if isLoading st then Spinner
  else if negb (isAuthenticated st)
          || match requiredRole with RoleAdmin => negb (isAdmin st) | RoleUser => false end
  then Nothing
  else Children.

End ProtectedRoute.

(** ** Route handlers outside [withAuth] *)

(** The outcome of an awaited call: a value or an exception. *)
Inductive Outcome (A : Type) :=
| Ok (a : A)
| Raised (t : Thrown).

Arguments Ok {A} a.
Arguments Raised {A} t.

(** The 500 body of the [catch] blocks that echo the exception:
    [{ success: false, message: error instanceof Error ? error.message : fallback }]. *)
Definition echoedMessage (fallback : string) (t : Thrown) : string :=
  match t with
  | ErrorObject m => m
  | OtherValue => fallback
  end.

(** [req.headers.get('authorization')?.split(' ')[1]] *)
Definition secondWord (authorization : option string) : option string :=
  match authorization with
  | Some h => JS.split " "%char h !! 1%nat
  | None => None
  end.

(** Outcome of [verifyToken(token)] of [@/lib/auth]: the payload with its
    [userId], [null], or an exception. *)
Inductive VerifyOutcome :=
| Verified (userId : string)
| VerifyNull
| VerifyThrows (t : Thrown).

(** *** [POST /api/register] *)

(** The parsed request body: [const { username, password } = await request.json()]. *)
Record Credentials := {
  cred_username : option string;
  cred_password : option string
}.

(** [getMongoDb()]: the database with its [users] collection, [null], or an
    exception. *)
Inductive Database :=
| Db (users : list User)
| DbNull
| DbThrows (t : Thrown).

(** [db.collection('users').findOne({ username })] over the documents. *)
Definition findByUsernameIn (users : list User) (name : string) : StoreOutcome :=
  match List.find (fun u => String.eqb (username u) name) users with
  | Some u => Found u
  | None => NotFound
  end.

(** [db.collection('users').findOne({ _id })] over the documents. *)
Definition findByIdIn (users : list User) (id : string) : StoreOutcome :=
  match List.find (fun u => String.eqb (_id u) id) users with
  | Some u => Found u
  | None => NotFound
  end.

Section RegisterRoute.

Variable env : ProcessEnv.
(** [s.trim().toLowerCase()] *)
Variable normalize : string -> string.
(** [hashPassword] and [generateToken] of [@/lib/auth]; the token codec is
    taken as a computation that always yields a token, as for the login
    handler. *)
Variable hashPassword : string -> Outcome string.
Variable generateToken : string -> Z -> string.
Variable now : Z.
(** The awaited [insertOne(newUser)]: the [insertedId] of its result, if
    any, or an exception. *)
Variable insertOne : Outcome (option string).

Definition registerFailure (msg : string) (st : Z) : Response :=
  NextResponse.json (JObj [("success", JBool false); ("message", JStr msg)]) st.

Definition registerCookieOptions : CookieOptions :=
  {| httpOnly := Some true;
     secure := Some (isProduction env);
     maxAge := Some (7 * 24 * 60 * 60);
     path := Some "/";
     sameSite := Some "lax";
     expires := None |}.

(** The handler, on the parsed body and the database; it returns the answer
    and the [users] collection afterwards (of the [user] object of the answer
    only the modelled fields are listed). *)
Definition register_POST (body_ : Outcome Credentials) (db : Database)
    : Response * Database :=
  match body_ with
  | Raised t => (registerFailure (echoedMessage "Lỗi hệ thống" t) 500, db)
  | Ok c =>
      match cred_username c, cred_password c with
      | Some uname, Some pw =>
          if negb (JS.truthy uname) || negb (JS.truthy pw)
          then (registerFailure "Vui lòng nhập username và password" 400, db)
          else if (JS.length uname <? 3)%nat
          then (registerFailure "Tên đăng nhập phải có ít nhất 3 ký tự" 400, db)
          else if (JS.length pw <? 6)%nat
          then (registerFailure "Mật khẩu phải có ít nhất 6 ký tự" 400, db)
          else
            match db with
            | DbThrows t => (registerFailure (echoedMessage "Lỗi hệ thống" t) 500, db)
            | DbNull => (registerFailure "Không thể kết nối cơ sở dữ liệu" 500, db)
            | Db users =>
                match findByUsernameIn users (normalize uname) with
                | StoreThrows => (registerFailure "Lỗi hệ thống" 500, db)
                | Found _ => (registerFailure "Tên đăng nhập đã được sử dụng" 400, db)
                | NotFound =>
                    match hashPassword pw with
                    | Raised t => (registerFailure (echoedMessage "Lỗi hệ thống" t) 500, db)
                    | Ok hashedPassword =>
                        match insertOne with
                        | Raised t =>
                            (registerFailure (echoedMessage "Lỗi hệ thống" t) 500, db)
                        | Ok None =>
                            (* the driver reports no inserted document *)
                            (registerFailure "Không thể tạo tài khoản" 500, db)
                        | Ok (Some id) =>
                            let newUser :=
                              {| _id := id; username := normalize uname;
                                 role := Some "user"; password := Some hashedPassword |} in
                            let token := generateToken id now in
                            let response :=
                              NextResponse.json
                                (JObj [("success", JBool true);
                                       ("message", JStr "Đăng ký thành công!");
                                       ("user", JObj [("username", JStr (normalize uname));
                                                      ("role", JStr "user");
                                                      ("_id", JStr id)])])
                                200 in
                            (NextResponse.cookies_set "token" token registerCookieOptions
                               response,
                             Db (users ++ [newUser]))
                        end
                    end
                end
            end
      | _, _ => (registerFailure "Vui lòng nhập username và password" 400, db)
      end
  end.

(** The document a successful registration inserts. *)
Definition registered (id uname hashedPassword : string) : User :=
  {| _id := id; username := normalize uname; role := Some "user";
     password := Some hashedPassword |}.

End RegisterRoute.

(** *** [POST /api/upload-verification] *)

(** [const MAX_FILE_SIZE = 5 * 1024 * 1024] *)
Definition MAX_FILE_SIZE : Z := 5 * 1024 * 1024.

Definition ALLOWED_FILE_TYPES : list string := ["image/jpeg"; "image/png"; "image/jpg"].

(** A [File] of the form data: its name, MIME type and size in bytes. *)
Record File := {
  file_name : string;
  file_type : string;
  file_size : Z
}.

(** [formData.get('file')] and [formData.get('type')]. *)
Record UploadForm := {
  form_file : option File;
  form_type : option string
}.

(** The writes a handler performs, in order. *)
Inductive Effect :=
| BlobPut (pathname : string) (file : File)
    (* put(pathname, file, { access: 'public', addRandomSuffix: false }) *)
| SetVerificationImage (userId field url : string)
    (* users.updateOne({ _id }, { $set: { [field]: url, ... } }, { upsert: true }) *)
| SetPassword (userId hash : string).
    (* users.updateOne({ _id }, { $set: { password: hash, updatedAt } }) *)

(** [xs.pop()] on the result of a [split]: the last element. *)
Definition lastWord (xs : list string) : string := List.last xs "".

Definition messageOnly (msg : string) (st : Z) : Response :=
  NextResponse.json (JObj [("message", JStr msg)]) st.

Section UploadRoute.

Variable verifyToken : string -> VerifyOutcome.
(** [put] of [@vercel/blob]: the URL of the stored blob. *)
Variable put : string -> File -> Outcome string.
(** [clientPromise], [client.db()] and [updateOne]: [None] when they succeed. *)
Variable updateOne : string -> string -> string -> option Thrown.
Variable now : Z.

(** [`verification/${user.userId}-${type}-${Date.now()}.${fileExt}`] *)
Definition uploadPathname (userId type_ : string) (file : File) : string :=
  let fileExt := lastWord (JS.split "."%char (file_name file)) in
  let fileName :=
    userId +:+ "-" +:+ type_ +:+ "-" +:+ TokenCodec.decimal now +:+ "." +:+ fileExt in
  "verification/" +:+ fileName.

Definition uploadError (t : Thrown) : Response :=
  messageOnly (echoedMessage "Lỗi khi tải lên" t) 500.

(** The handler, on the [Authorization] header and the form data; it returns
    the answer and the writes performed. *)
Definition upload_POST (authorization : option string) (form : Outcome UploadForm)
    : Response * list Effect :=
  let token := secondWord authorization in
  match token with
  | None => (messageOnly "Bạn cần đăng nhập" 401, [])
  | Some token =>
      if negb (JS.truthy token) then (messageOnly "Bạn cần đăng nhập" 401, [])
      else
        match verifyToken token with
        | VerifyThrows t => (uploadError t, [])
        | VerifyNull => (messageOnly "Phiên đăng nhập hết hạn" 401, [])
        | Verified userId =>
            match form with
            | Raised t => (uploadError t, [])
            | Ok f =>
                match form_file f, form_type f with
                | Some file, Some type_ =>
                    if negb (JS.truthy type_)
                    then (messageOnly "Thiếu file hoặc loại file" 400, [])
                    else if negb (JS.includes ALLOWED_FILE_TYPES (file_type file))
                    then (messageOnly "Chỉ chấp nhận file ảnh định dạng JPG hoặc PNG" 400, [])
                    else if file_size file >? MAX_FILE_SIZE
                    then (messageOnly "Kích thước file tối đa là 5MB" 400, [])
                    else
                      let pathname := uploadPathname userId type_ file in
                      match put pathname file with
                      | Raised t => (uploadError t, [])
                      | Ok blobUrl =>
                          let updateField :=
                            if String.eqb type_ "front"
                            then "verification.cccdFront"
                            else "verification.cccdBack" in
                          match updateOne userId updateField blobUrl with
                          | Some t => (uploadError t, [BlobPut pathname file])
                          | None =>
                              (NextResponse.json
                                 (JObj [("success", JBool true);
                                        ("message", JStr "Tải lên thành công");
                                        ("url", JStr blobUrl)])
                                 200,
                               [BlobPut pathname file;
                                SetVerificationImage userId updateField blobUrl])
                          end
                      end
                | _, _ => (messageOnly "Thiếu file hoặc loại file" 400, [])
                end
            end
        end
  end.

End UploadRoute.

(** *** [POST] change password *)

(** The parsed request body: [const { currentPassword, newPassword } = await req.json()]. *)
Record PasswordChange := {
  currentPassword : option string;
  newPassword : option string
}.

Section ChangePasswordRoute.

Variable verifyToken : string -> VerifyOutcome.
(** [clientPromise], [client.db()] and [findOne({ _id: new ObjectId(userId) })]. *)
Variable findOne : string -> Outcome (option User).
(** [hash(newPassword, 12)] of [bcryptjs]. *)
Variable hash : string -> Outcome string.
(** [updateOne]: [None] when it succeeds. *)
Variable updateOne : string -> string -> option Thrown.

Definition changePasswordError (t : Thrown) : Response :=
  NextResponse.json
    (JObj [("success", JBool false);
           ("message", JStr (echoedMessage "Có lỗi xảy ra khi đổi mật khẩu" t))])
    500.

(** The handler, on the [Authorization] header and the parsed body; it
    returns the answer and the writes performed. *)
Definition changePassword_POST (authorization : option string)
    (body_ : Outcome PasswordChange) : Response * list Effect :=
  let token := secondWord authorization in
  match token with
  | None => (messageOnly "Bạn cần đăng nhập" 401, [])
  | Some token =>
      if negb (JS.truthy token) then (messageOnly "Bạn cần đăng nhập" 401, [])
      else
        match verifyToken token with
        | VerifyThrows t => (changePasswordError t, [])
        | VerifyNull => (messageOnly "Phiên đăng nhập hết hạn" 401, [])
        | Verified userId =>
            match body_ with
            | Raised t => (changePasswordError t, [])
            | Ok b =>
                match currentPassword b, newPassword b with
                | Some current, Some new =>
                    if negb (JS.truthy current) || negb (JS.truthy new)
                    then (messageOnly "Vui lòng nhập mật khẩu hiện tại và mật khẩu mới" 400, [])
                    else if (JS.length new <? 8)%nat
                    then (messageOnly "Mật khẩu phải có ít nhất 8 ký tự" 400, [])
                    else
                      match findOne userId with
                      | Raised t => (changePasswordError t, [])
                      | Ok None =>
                          (messageOnly "Không tìm thấy thông tin người dùng" 404, [])
                      | Ok (Some userData) =>
                          match hash new with
                          | Raised t => (changePasswordError t, [])
                          | Ok hashedPassword =>
                              match updateOne userId hashedPassword with
                              | Some t => (changePasswordError t, [])
                              | None =>
                                  (NextResponse.json
                                     (JObj [("success", JBool true);
                                            ("message", JStr "Đổi mật khẩu thành công")])
                                     200,
                                   [SetPassword userId hashedPassword])
                              end
                          end
                      end
                | _, _ =>
                    (messageOnly "Vui lòng nhập mật khẩu hiện tại và mật khẩu mới" 400, [])
                end
            end
        end
  end.

End ChangePasswordRoute.

(** ** Further inputs for evaluating the code *)

Module Fixtures.

(** An administrator beside [u1], and the store that holds both. *)
Definition admin : User :=
  {| _id := "64b7f0c2a1d2e3f4a5b6c7d9"; username := "root";
     role := Some "admin"; password := Some "hash-of-Adm1n@12345" |}.

Definition staff : list User := [Deployment.u1; admin].

Definition findOne (id : string) : StoreOutcome := findByIdIn staff id.

Definition adminToken : string :=
  Deployment.generateToken (_id admin) Deployment.issuedAt.

Definition adminRequest (m p : string) : NextRequest :=
  Deployment.mkRequest m p ∅ {[ "token" := adminToken ]}.

(** The instant at which the session of [u1] is exactly seven days old. *)
Definition lastValidInstant : Z := Deployment.issuedAt + TOKEN_MAX_AGE_MS.

End Fixtures.

Module GateFixtures.

(** A visitor of a protected page without any token. *)
Definition anonymousDashboard : NextRequest :=
  Deployment.mkRequest "GET" "/dashboard" ∅ ∅.

(** A preflight from an origin outside the allow-list. *)
Definition foreignPreflight : NextRequest :=
  Deployment.mkRequest "OPTIONS" "/api/deposits"
    {[ "origin" := "https://evil.example" ]} ∅.

(** A page request from an allowed origin. *)
Definition allowedHome : NextRequest :=
  Deployment.mkRequest "GET" "/" {[ "origin" := "https://inal-hsc1.com" ]} ∅.

(** The session cookie of [u1] together with an [Authorization] header whose
    token part is empty. *)
Definition emptyBearerDashboard : NextRequest :=
  Deployment.mkRequest "GET" "/dashboard"
    {[ "authorization" := "Bearer  " +:+ Deployment.sessionToken ]}
    {[ "token" := Deployment.sessionToken ]}.

End GateFixtures.

Module ClientFixtures.

(** The browser of [u1] after a login at the issue time of the session. *)
Definition loggedIn : ClientState :=
  fst (login Deployment.issuedAt Deployment.loginOk Deployment.freshClient).

Definition noRefs : RedirectRefs := {| lastPathRef := ""; lastRedirectTimeRef := 0 |}.

(** A state whose initial check is over and found nobody. *)
Definition checkedAnonymous : ClientState :=
  checkAuth true Deployment.issuedAt Deployment.meUnauthorized Deployment.freshClient.

End ClientFixtures.

Module RegisterFixtures.

(** ASCII stand-ins for [toLowerCase] and [trim]. *)
Definition lowerChar (c : ascii) : ascii :=
  let n := nat_of_ascii c in
  if (65 <=? n)%nat && (n <=? 90)%nat then ascii_of_nat (n + 32) else c.

Fixpoint lower (s : string) : string :=
  match s with
  | EmptyString => EmptyString
  | String c rest => String (lowerChar c) (lower rest)
  end.

Fixpoint dropBlanks (cs : list ascii) : list ascii :=
  match cs with
  | c :: rest => if Ascii.eqb c " " then dropBlanks rest else cs
  | [] => []
  end.

Definition trim (s : string) : string :=
  string_of_list_ascii
    (List.rev (dropBlanks (List.rev (dropBlanks (list_ascii_of_string s))))).

Definition normalize (s : string) : string := lower (trim s).

(** The hash that [Deployment.comparePassword] recognises. *)
Definition hashPassword (pw : string) : Outcome string := Ok ("hash-of-" +:+ pw).

Definition newId : string := "64b7f0c2a1d2e3f4a5b6c7da".

Definition aliceBody : Outcome Credentials :=
  Ok {| cred_username := Some " Alice "; cred_password := Some "Secret#1" |}.


Definition register (body_ : Outcome Credentials) (db : Database) : Response * Database :=
  register_POST Deployment.production normalize hashPassword Deployment.generateToken
    Deployment.issuedAt (Ok (Some newId)) body_ db.

End RegisterFixtures.

Module UploadFixtures.

(** A verifier that knows one token, that of [u1]. *)
Definition verifyToken (token : string) : VerifyOutcome :=
  if String.eqb token "u1-token" then Verified (_id Deployment.u1) else VerifyNull.

Definition put (pathname : string) (_ : File) : Outcome string :=
  Ok ("https://blob.example/" +:+ pathname).

Definition updateOne (_ _ _ : string) : option Thrown := None.

Definition idCard : File :=
  {| file_name := "id.card.png"; file_type := "image/png"; file_size := MAX_FILE_SIZE |}.

Definition form (type_ : string) : Outcome UploadForm :=
  Ok {| form_file := Some idCard; form_type := Some type_ |}.

Definition upload (authorization : option string) (f : Outcome UploadForm)
    : Response * list Effect :=
  upload_POST verifyToken put updateOne Deployment.issuedAt authorization f.

(** The change-password collaborators. *)
Definition findOne (id : string) : Outcome (option User) :=
  Ok (if String.eqb id (_id Deployment.u1) then Some Deployment.u1 else None).

Definition hash (pw : string) : Outcome string := Ok ("bcrypt12-of-" +:+ pw).



End UploadFixtures.

(** * Properties *)

(** ** The request authenticator *)

Section AuthenticatorFacts.

Variable env : ProcessEnv.
Variable parseToken : string -> ParseOutcome.
Variable findOne : string -> StoreOutcome.
Variable now : Z.

#[local] Abbreviation authenticate := (authenticateRequest parseToken findOne now).

(** The contract "exactly one of [user] and [error] is non-null". *)
Lemma authenticate_exactly_one (r : NextRequest) :
  (exists u, authenticate r = auth_ok u)
  \/ (exists msg, authenticate r = auth_fail msg /\ JS.truthy msg = true).
Proof.
  unfold authenticateRequest.
  destruct (cookies r !! "token") as [tok|]; [|right; eexists; split; reflexivity].
  destruct (JS.truthy tok); simpl; [|right; eexists; split; reflexivity].
  destruct (parseToken tok) as [td| |]; try (right; eexists; split; reflexivity).
  destruct (now - timestamp td >? TOKEN_MAX_AGE_MS);
    [right; eexists; split; reflexivity|].
  destruct (findOne (userId td)); try (right; eexists; split; reflexivity).
  left; eexists; reflexivity.
Qed.

(** Only the [token] cookie is read: requests with the same cookie jar get
    the same answer. *)
Lemma authenticate_cookie_only (r r' : NextRequest) :
  cookies r !! "token" = cookies r' !! "token" ->
  authenticate r = authenticate r'.
Proof. unfold authenticateRequest. intros ->. reflexivity. Qed.

Lemma authenticate_no_cookie (r : NextRequest) :
  JS.truthy_opt (cookies r !! "token") = false ->
  authenticate r = auth_fail "No token provided".
Proof.
  unfold authenticateRequest, JS.truthy_opt.
  destruct (cookies r !! "token") as [tok|]; [|reflexivity].
  intros ->. reflexivity.
Qed.

Lemma authenticate_parsed (r : NextRequest) (tok : string) (td : TokenData) :
  cookies r !! "token" = Some tok ->
  JS.truthy tok = true ->
  parseToken tok = Parsed td ->
  authenticate r =
    if now - timestamp td >? TOKEN_MAX_AGE_MS then auth_fail "Token expired"
    else match findOne (userId td) with
         | StoreThrows => auth_fail "Database error during authentication"
         | NotFound => auth_fail "User not found"
         | Found u => auth_ok (userWithoutPassword u)
         end.
Proof.
  unfold authenticateRequest. intros -> -> ->. reflexivity.
Qed.

Lemma authenticate_unparsed (r : NextRequest) (tok : string) :
  cookies r !! "token" = Some tok ->
  JS.truthy tok = true ->
  parseToken tok = ParseNull ->
  authenticate r = auth_fail "Invalid token format".
Proof.
  unfold authenticateRequest. intros -> -> ->. reflexivity.
Qed.

(** Every failure of the authenticator becomes the 401 answer of [withAuth];
    the handler is not consulted. *)
Lemma withAuth_failure (handler : AuthRequest -> HandlerOutcome)
    (roles : list string) (r : NextRequest) (msg : string) :
  authenticate r = auth_fail msg ->
  withAuth env parseToken findOne now handler roles r
  = NextResponse.json (unauthorizedBody (Some msg)) 401.
Proof.
  unfold withAuth. intros ->. simpl.
  destruct (JS.truthy msg); reflexivity.
Qed.

(** On success the role check and the handler decide. *)
Lemma withAuth_success (handler : AuthRequest -> HandlerOutcome)
    (roles : list string) (r : NextRequest) (u : User) :
  authenticate r = auth_ok u ->
  withAuth env parseToken findOne now handler roles r
  = if (0 <? Z.of_nat (List.length roles)) && negb (hasRole roles u)
    then NextResponse.json forbiddenBody 403
    else match handler {| request := r; request_user := u |} with
         | Returns result => result
         | Throws t => NextResponse.json (handlerErrorBody env r t) 500
         end.
Proof. unfold withAuth. intros ->. reflexivity. Qed.

End AuthenticatorFacts.

(** ** Store faults (C1) *)

(** C1, as the code has it: when the token of the request parses and is not
    expired and the lookup in the user store raises, [authenticateRequest]
    fails with the error ['Database error during authentication'], which
    differs from the error of an absent user, and [withAuth] answers it like
    every other authentication failure: status 401, message
    ['Unauthorized: Database error during authentication'], whatever the
    handler and the roles. *)
Theorem C1_store_fault_is_unauthorized
    (env : ProcessEnv) (parseToken : string -> ParseOutcome)
    (findOne : string -> StoreOutcome) (now : Z)
    (handler : AuthRequest -> HandlerOutcome) (roles : list string)
    (r : NextRequest) (tok : string) (td : TokenData) :
  cookies r !! "token" = Some tok ->
  JS.truthy tok = true ->
  parseToken tok = Parsed td ->
  now - timestamp td <= TOKEN_MAX_AGE_MS ->
  findOne (userId td) = StoreThrows ->
  authenticateRequest parseToken findOne now r
    = auth_fail "Database error during authentication"
  /\ "Database error during authentication" <> "User not found"
  /\ withAuth env parseToken findOne now handler roles r
     = NextResponse.json
         (JObj [("success", JBool false);
                ("message", JStr "Unauthorized: Database error during authentication")])
         401.
Proof.
  intros Hcookie Htruthy Hparse Hage Hstore.
  assert (Hauth : authenticateRequest parseToken findOne now r
                  = auth_fail "Database error during authentication").
  { rewrite (authenticate_parsed _ _ _ _ _ _ Hcookie Htruthy Hparse).
    replace (now - timestamp td >? TOKEN_MAX_AGE_MS) with false
      by (symmetry; rewrite Z.gtb_ltb; apply Z.ltb_ge; exact Hage).
    rewrite Hstore. reflexivity. }
  split; [exact Hauth|]. split; [discriminate|].
  rewrite (withAuth_failure _ _ _ _ _ _ _ _ Hauth). reflexivity.
Qed.

(** The theorem at the session of [u1] over a store that is down. *)
Lemma C1_store_fault_witness :
  authenticateRequest Deployment.parseToken Deployment.brokenStore
      (Deployment.issuedAt + 1000) Deployment.meRequest
    = auth_fail "Database error during authentication"
  /\ "Database error during authentication" <> "User not found"
  /\ withAuth Deployment.production Deployment.parseToken Deployment.brokenStore
       (Deployment.issuedAt + 1000) (meHandler) defaultRoles Deployment.meRequest
     = NextResponse.json
         (JObj [("success", JBool false);
                ("message", JStr "Unauthorized: Database error during authentication")])
         401.
Proof.
  apply (C1_store_fault_is_unauthorized Deployment.production Deployment.parseToken
           Deployment.brokenStore (Deployment.issuedAt + 1000) meHandler defaultRoles
           Deployment.meRequest Deployment.sessionToken
           {| userId := _id Deployment.u1; timestamp := Deployment.issuedAt |}).
  - vm_compute. reflexivity.
  - vm_compute. reflexivity.
  - vm_compute. reflexivity.
  - vm_compute. discriminate.
  - reflexivity.
Defined.

(** The claim's status 500 fails: with a parsing, unexpired token and a store
    that raises, the role authorizer answers 401. *)
Lemma C1_store_fault_not_500 :
  cookies Deployment.meRequest !! "token" = Some Deployment.sessionToken
  /\ Deployment.parseToken Deployment.sessionToken
     = Parsed {| userId := _id Deployment.u1; timestamp := Deployment.issuedAt |}
  /\ (Deployment.issuedAt + 1000) - Deployment.issuedAt <= TOKEN_MAX_AGE_MS
  /\ Deployment.brokenStore (_id Deployment.u1) = StoreThrows
  /\ status (withAuth Deployment.production Deployment.parseToken Deployment.brokenStore
               (Deployment.issuedAt + 1000) meHandler defaultRoles Deployment.meRequest)
     = 401
  /\ status (withAuth Deployment.production Deployment.parseToken Deployment.brokenStore
               (Deployment.issuedAt + 1000) meHandler defaultRoles Deployment.meRequest)
     <> 500.
Proof.
  repeat split; try (vm_compute; reflexivity); vm_compute; discriminate.
Qed.

(** ** Expiry and signature (C5) *)

(** C5, as the code has it: the expiry test runs on the payload that
    [parseToken] returns.  A token that [parseToken] accepts and whose
    timestamp lies more than seven days before now fails with
    ['Token expired']; a token that [parseToken] rejects fails with
    ['Invalid token format'], whatever the clock says. *)
Theorem C5_expired_after_parsing
    (parseToken : string -> ParseOutcome) (findOne : string -> StoreOutcome)
    (now : Z) (r : NextRequest) (tok : string) :
  cookies r !! "token" = Some tok ->
  JS.truthy tok = true ->
  (forall td, parseToken tok = Parsed td ->
              now - timestamp td > TOKEN_MAX_AGE_MS ->
              authenticateRequest parseToken findOne now r = auth_fail "Token expired")
  /\ (parseToken tok = ParseNull ->
      authenticateRequest parseToken findOne now r = auth_fail "Invalid token format").
Proof.
  intros Hcookie Htruthy. split.
  - intros td Hparse Hage.
    rewrite (authenticate_parsed _ _ _ _ _ _ Hcookie Htruthy Hparse).
    replace (now - timestamp td >? TOKEN_MAX_AGE_MS) with true; [reflexivity|].
    symmetry. rewrite Z.gtb_ltb. apply Z.ltb_lt. lia.
  - intros Hparse. exact (authenticate_unparsed _ _ _ _ _ Hcookie Htruthy Hparse).
Qed.

(** The theorem at the session of [u1], eight days after login, and at the
    forged token. *)
Lemma C5_expired_witness :
  authenticateRequest Deployment.parseToken Deployment.findOne
      (Deployment.issuedAt + 8 * 24 * 60 * 60 * 1000) Deployment.meRequest
    = auth_fail "Token expired"
  /\ authenticateRequest Deployment.parseToken Deployment.findOne
       (Deployment.issuedAt + 8 * 24 * 60 * 60 * 1000) Deployment.forgedRequest
     = auth_fail "Invalid token format".
Proof.
  split.
  - apply (proj1 (C5_expired_after_parsing Deployment.parseToken Deployment.findOne
                    (Deployment.issuedAt + 8 * 24 * 60 * 60 * 1000)
                    Deployment.meRequest Deployment.sessionToken
                    ltac:(vm_compute; reflexivity) ltac:(vm_compute; reflexivity))
             {| userId := _id Deployment.u1; timestamp := Deployment.issuedAt |}).
    + vm_compute. reflexivity.
    + vm_compute. reflexivity.
  - apply (proj2 (C5_expired_after_parsing Deployment.parseToken Deployment.findOne
                    (Deployment.issuedAt + 8 * 24 * 60 * 60 * 1000)
                    Deployment.forgedRequest Deployment.forgedToken
                    ltac:(vm_compute; reflexivity) ltac:(vm_compute; reflexivity))).
    vm_compute. reflexivity.
Defined.

(** The claim fails for a token whose signature is invalid: the forged token
    is stamped at time 1000, far more than seven days before the clock, and
    the authenticator answers ['Invalid token format']. *)
Lemma C5_forged_old_token_is_invalid :
  TokenCodec.decode Deployment.forgedToken
    = Some (_id Deployment.u1, 1000, "bad")
  /\ TokenCodec.signatureValid Deployment.sign Deployment.forgedToken = false
  /\ (Deployment.issuedAt - 1000 >? TOKEN_MAX_AGE_MS) = true
  /\ authenticateRequest Deployment.parseToken Deployment.findOne
       Deployment.issuedAt Deployment.forgedRequest
     = auth_fail "Invalid token format"
  /\ authenticateRequest Deployment.parseToken Deployment.findOne
       Deployment.issuedAt Deployment.forgedRequest
     <> auth_fail "Token expired".
Proof.
  repeat split; try (vm_compute; reflexivity). vm_compute. discriminate.
Qed.

(** Over the codec: for a well-formed token older than seven days the
    signature decides between the two errors. *)
Lemma expired_or_invalid_by_signature
    (sign : string -> string) (findOne : string -> StoreOutcome) (now : Z)
    (r : NextRequest) (tok subject signature : string) (t : Z) :
  cookies r !! "token" = Some tok ->
  TokenCodec.decode tok = Some (subject, t, signature) ->
  now - t > TOKEN_MAX_AGE_MS ->
  authenticateRequest (TokenCodec.parseToken sign) findOne now r
  = if TokenCodec.signatureValid sign tok
    then auth_fail "Token expired"
    else auth_fail "Invalid token format".
Proof.
  intros Hcookie Hdecode Hage.
  assert (Htruthy : JS.truthy tok = true).
  { destruct tok; [discriminate Hdecode | reflexivity]. }
  unfold TokenCodec.signatureValid. rewrite Hdecode.
  destruct (String.eqb signature (sign (TokenCodec.payload subject t))) eqn:Hsig.
  - rewrite (authenticate_parsed _ _ _ _ _ {| userId := subject; timestamp := t |}
               Hcookie Htruthy).
    + simpl. replace (now - t >? TOKEN_MAX_AGE_MS) with true; [reflexivity|].
      symmetry. rewrite Z.gtb_ltb. apply Z.ltb_lt. lia.
    + unfold TokenCodec.parseToken. rewrite Hdecode, Hsig. reflexivity.
  - apply (authenticate_unparsed _ _ _ _ _ Hcookie Htruthy).
    unfold TokenCodec.parseToken. rewrite Hdecode, Hsig. reflexivity.
Qed.

(** ** Where the token is read from (C3) *)

(** A string without the separator is a single field. *)
Lemma split_without_separator (sep : ascii) (s : string) :
  JS.contains sep s = false -> JS.split sep s = [s].
Proof.
  induction s as [|c s IH]; simpl; [reflexivity|].
  intros H. apply orb_false_iff in H as [Hc Hs].
  rewrite Hc, (IH Hs). reflexivity.
Qed.

(** [split(' ')[1]] of a header ['Bearer ' + t]. *)
Lemma split_bearer (t : string) :
  JS.split " " ("Bearer " +:+ t) !! 1%nat = hd_error (JS.split " " t).
Proof.
  change ("Bearer " +:+ t)
    with (String "B" (String "e" (String "a" (String "r" (String "e"
            (String "r" (String " " t))))))).
  cbn [JS.split Ascii.eqb Bool.eqb].
  destruct (JS.split " " t); reflexivity.
Qed.

Lemma getToken_bearer (r : NextRequest) (t : string) :
  headers r !! "authorization" = Some ("Bearer " +:+ t) ->
  JS.contains " " t = false ->
  getTokenFromRequest r = Some t.
Proof.
  intros Hh Hsp. unfold getTokenFromRequest. rewrite Hh.
  change (JS.startsWith ("Bearer " +:+ t) "Bearer ") with true. cbv iota.
  rewrite split_bearer, (split_without_separator _ _ Hsp). reflexivity.
Qed.

(** C3, as the code has it.  The priority order is that of the route gate's
    [getTokenFromRequest]: a header ['Bearer ' + t] yields [t] whatever the
    cookie and the query string hold; without such a header a non-empty
    [token] cookie is taken; without either, the [token] query parameter.
    The request authenticator reads the [token] cookie only: requests with
    the same cookie get the same answer, and a request without the cookie
    fails with ['No token provided'] whatever its headers and query string. *)
Theorem C3_token_sources
    (parseToken : string -> ParseOutcome) (findOne : string -> StoreOutcome)
    (now : Z) (r : NextRequest) :
  (forall t, headers r !! "authorization" = Some ("Bearer " +:+ t) ->
             JS.contains " " t = false ->
             getTokenFromRequest r = Some t)
  /\ (forall c, (forall h, headers r !! "authorization" = Some h ->
                           JS.startsWith h "Bearer " = false) ->
                cookies r !! "token" = Some c -> JS.truthy c = true ->
                getTokenFromRequest r = Some c)
  /\ ((forall h, headers r !! "authorization" = Some h ->
                 JS.startsWith h "Bearer " = false) ->
      JS.truthy_opt (cookies r !! "token") = false ->
      getTokenFromRequest r = query r !! "token")
  /\ (forall r', cookies r' !! "token" = cookies r !! "token" ->
                 authenticateRequest parseToken findOne now r'
                 = authenticateRequest parseToken findOne now r)
  /\ (cookies r !! "token" = None ->
      authenticateRequest parseToken findOne now r = auth_fail "No token provided").
Proof.
  split; [intros t; apply getToken_bearer|].
  assert (Hnb : (forall h, headers r !! "authorization" = Some h ->
                           JS.startsWith h "Bearer " = false) ->
                match headers r !! "authorization" with
                | Some h => JS.startsWith h "Bearer "
                | None => false
                end = false).
  { intros H. destruct (headers r !! "authorization") as [h|]; [apply H|]; reflexivity. }
  split; [|split; [|split]].
  - intros c Hno Hc Ht. unfold getTokenFromRequest.
    rewrite (Hnb Hno), Hc. simpl. rewrite Ht. reflexivity.
  - intros Hno Hc. unfold getTokenFromRequest.
    rewrite (Hnb Hno), Hc. reflexivity.
  - intros r' Heq. apply authenticate_cookie_only. exact Heq.
  - intros Hc. apply authenticate_no_cookie. rewrite Hc. reflexivity.
Qed.

(** The claim fails for the authenticator: the session token of [u1], valid
    and fresh, is found by the route gate in the [Authorization] header, and
    the authenticator rejects the same request for want of a cookie. *)
Lemma C3_bearer_only_is_rejected :
  cookies Deployment.bearerOnlyRequest !! "token" = None
  /\ getTokenFromRequest Deployment.bearerOnlyRequest = Some Deployment.sessionToken
  /\ authenticateRequest Deployment.parseToken Deployment.findOne
       (Deployment.issuedAt + 1000) Deployment.meRequest
     = auth_ok (userWithoutPassword Deployment.u1)
  /\ authenticateRequest Deployment.parseToken Deployment.findOne
       (Deployment.issuedAt + 1000) Deployment.bearerOnlyRequest
     = auth_fail "No token provided"
  /\ status (me_GET Deployment.production Deployment.parseToken Deployment.findOne
               (Deployment.issuedAt + 1000) Deployment.bearerOnlyRequest)
     = 401.
Proof.
  repeat split; vm_compute; reflexivity.
Qed.

(** ** Handler exceptions (C4) *)

(** The payload of the 500 answer follows [debugEnabled]. *)
Lemma handlerErrorBody_debug (env : ProcessEnv) (r : NextRequest) (t : Thrown) :
  prop "_debug" (handlerErrorBody env r t)
  = if debugEnabled env
    then Some (JObj [("error", JStr (errorMessage t)); ("path", JStr (basePath r))])
    else None.
Proof. unfold handlerErrorBody. destruct (debugEnabled env); reflexivity. Qed.

(** Without the debug flag production is silent: when the handler wrapped by
    [withAuth] raises and the configuration is production with [DEBUG_AUTH]
    other than ['true'], the answer is status 500 with the body
    [{ success: false, message: 'Internal server error' }] and nothing else. *)
Theorem C4_production_without_debug_flag
    (env : ProcessEnv) (parseToken : string -> ParseOutcome)
    (findOne : string -> StoreOutcome) (now : Z)
    (handler : AuthRequest -> HandlerOutcome) (roles : list string)
    (r : NextRequest) (u : User) (t : Thrown) :
  NODE_ENV env = Some "production" ->
  DEBUG_AUTH env <> Some "true" ->
  authenticateRequest parseToken findOne now r = auth_ok u ->
  ((0 <? Z.of_nat (List.length roles)) && negb (hasRole roles u)) = false ->
  handler {| request := r; request_user := u |} = Throws t ->
  withAuth env parseToken findOne now handler roles r
  = NextResponse.json
      (JObj [("success", JBool false); ("message", JStr "Internal server error")])
      500.
Proof.
  intros Hprod Hflag Hauth Hrole Hthrow.
  rewrite (withAuth_success _ _ _ _ _ _ _ _ Hauth), Hrole, Hthrow.
  unfold handlerErrorBody, debugEnabled.
  rewrite (bool_decide_eq_false_2 _ Hflag), (bool_decide_eq_true_2 _ Hprod).
  reflexivity.
Qed.

(** At the session of [u1] in production, with a handler that raises. *)
Lemma C4_production_witness :
  withAuth Deployment.production Deployment.parseToken Deployment.findOne
    (Deployment.issuedAt + 1000) Deployment.throwingHandler defaultRoles
    Deployment.meRequest
  = NextResponse.json
      (JObj [("success", JBool false); ("message", JStr "Internal server error")])
      500.
Proof.
  apply (C4_production_without_debug_flag Deployment.production Deployment.parseToken
           Deployment.findOne (Deployment.issuedAt + 1000) Deployment.throwingHandler
           defaultRoles Deployment.meRequest (userWithoutPassword Deployment.u1)
           (ErrorObject Deployment.internalText)).
  - reflexivity.
  - discriminate.
  - vm_compute. reflexivity.
  - reflexivity.
  - reflexivity.
Defined.

(** C4 on the code: with [NODE_ENV] ['production'] and [DEBUG_AUTH] ['true']
    the 500 answer of [withAuth] to a handler that raises carries the text of
    the exception and the path in [_debug], where the claim and the source's
    own comments on that [catch] (no sensitive information; details in
    development only) want none; the [catch] of the [/api/auth/me] handler
    tests [NODE_ENV] alone. *)
Lemma C4_debug_flag_leaks_in_production :
  NODE_ENV Deployment.productionDebug = Some "production"
  /\ status (withAuth Deployment.productionDebug Deployment.parseToken Deployment.findOne
               (Deployment.issuedAt + 1000) Deployment.throwingHandler defaultRoles
               Deployment.meRequest)
     = 500
  /\ body (withAuth Deployment.productionDebug Deployment.parseToken Deployment.findOne
             (Deployment.issuedAt + 1000) Deployment.throwingHandler defaultRoles
             Deployment.meRequest)
     = Some (JObj [("success", JBool false);
                   ("message", JStr "Internal server error");
                   ("_debug", JObj [("error", JStr "connect ECONNREFUSED 10.0.0.5:27017");
                                    ("path", JStr "https://inal-hsc1.com/api/auth/me")])]).
Proof.
  repeat split; vm_compute; reflexivity.
Qed.

(** ** Logout without a session (C10) *)

(** C10: [POST /api/auth/logout] is [withAuth] around the handler.  When the
    request has no [token] cookie, or an empty one, or one that [parseToken]
    rejects or fails on, or one older than seven days, the answer is status
    401 and sets no cookie at all. *)
Theorem C10_logout_requires_authentication
    (env : ProcessEnv) (parseToken : string -> ParseOutcome)
    (findOne : string -> StoreOutcome) (now : Z) (r : NextRequest) :
  JS.truthy_opt (cookies r !! "token") = false
  \/ (exists tok, cookies r !! "token" = Some tok /\ JS.truthy tok = true
                  /\ (parseToken tok = ParseNull
                      \/ parseToken tok = ParseThrows
                      \/ exists td, parseToken tok = Parsed td
                                    /\ now - timestamp td > TOKEN_MAX_AGE_MS)) ->
  status (logout_POST env parseToken findOne now r) = 401
  /\ res_cookies (logout_POST env parseToken findOne now r) = ∅
  /\ res_headers (logout_POST env parseToken findOne now r) !! "set-cookie" = None.
Proof.
  intros H.
  assert (Hfail : exists msg,
             authenticateRequest parseToken findOne now r = auth_fail msg).
  { destruct H as [Hno | (tok & Hc & Ht & [Hnull | [Hthrows | (td & Hp & Hage)]])].
    - eexists. apply authenticate_no_cookie, Hno.
    - eexists. apply (authenticate_unparsed _ _ _ _ _ Hc Ht Hnull).
    - exists "Authentication failed".
      unfold authenticateRequest. rewrite Hc, Ht, Hthrows. reflexivity.
    - exists "Token expired".
      rewrite (authenticate_parsed _ _ _ _ _ _ Hc Ht Hp).
      replace (now - timestamp td >? TOKEN_MAX_AGE_MS) with true; [reflexivity|].
      symmetry. rewrite Z.gtb_ltb. apply Z.ltb_lt. lia. }
  destruct Hfail as [msg Hmsg]. unfold logout_POST.
  rewrite (withAuth_failure _ _ _ _ _ _ _ _ Hmsg).
  repeat split.
Qed.

(** The theorem at a logout request that carries no cookie. *)
Lemma C10_logout_witness :
  status (logout_POST Deployment.production Deployment.parseToken Deployment.findOne
            Deployment.issuedAt Deployment.anonymousLogout) = 401
  /\ res_cookies (logout_POST Deployment.production Deployment.parseToken
                    Deployment.findOne Deployment.issuedAt Deployment.anonymousLogout) = ∅
  /\ res_headers (logout_POST Deployment.production Deployment.parseToken
                    Deployment.findOne Deployment.issuedAt Deployment.anonymousLogout)
       !! "set-cookie" = None.
Proof.
  apply (C10_logout_requires_authentication Deployment.production Deployment.parseToken
           Deployment.findOne Deployment.issuedAt Deployment.anonymousLogout).
  left. reflexivity.
Defined.

(** The converse: a logout answer that sets the [token] cookie comes from an
    authenticated request. *)
Lemma logout_cookie_only_when_authenticated
    (env : ProcessEnv) (parseToken : string -> ParseOutcome)
    (findOne : string -> StoreOutcome) (now : Z) (r : NextRequest) :
  is_Some (res_cookies (logout_POST env parseToken findOne now r) !! "token") ->
  exists u, authenticateRequest parseToken findOne now r = auth_ok u.
Proof.
  intros Hset.
  destruct (authenticate_exactly_one parseToken findOne now r)
    as [Hok | (msg & Hmsg & _)]; [exact Hok|].
  unfold logout_POST in Hset.
  rewrite (withAuth_failure _ _ _ _ _ _ _ _ Hmsg) in Hset.
  destruct Hset as [c Hc]. discriminate Hc.
Qed.

(** ** The old cookie after logout (C9) *)

(** A token that parses, is at most seven days old and names a stored user
    of role [user] opens [GET /api/auth/me], at any time and after any
    sequence of earlier requests: none of the handlers keeps server state. *)
Lemma me_GET_valid_token
    (env : ProcessEnv) (parseToken : string -> ParseOutcome)
    (findOne : string -> StoreOutcome) (now : Z) (r : NextRequest)
    (tok : string) (td : TokenData) (u : User) :
  cookies r !! "token" = Some tok ->
  JS.truthy tok = true ->
  parseToken tok = Parsed td ->
  now - timestamp td <= TOKEN_MAX_AGE_MS ->
  findOne (userId td) = Found u ->
  role u = Some "user" ->
  me_GET env parseToken findOne now r
  = NextResponse.json
      (JObj [("success", JBool true); ("user", userResponse (userWithoutPassword u))])
      200.
Proof.
  intros Hc Ht Hp Hage Hfound Hrole.
  assert (Hauth : authenticateRequest parseToken findOne now r
                  = auth_ok (userWithoutPassword u)).
  { rewrite (authenticate_parsed _ _ _ _ _ _ Hc Ht Hp).
    replace (now - timestamp td >? TOKEN_MAX_AGE_MS) with false
      by (symmetry; rewrite Z.gtb_ltb; apply Z.ltb_ge; exact Hage).
    rewrite Hfound. reflexivity. }
  unfold me_GET. rewrite (withAuth_success _ _ _ _ _ _ _ _ Hauth).
  unfold hasRole, defaultRoles. simpl. rewrite Hrole. reflexivity.
Qed.

(** C9 on the code: [u1] logs in and receives the session token in the
    [token] cookie; [GET /api/auth/me] with that cookie answers 200;
    [POST /api/auth/logout] with that cookie answers 200 and sets the cookie
    to the empty string with [maxAge] 0; [GET /api/auth/me] with the old
    cookie answers 200 again, where the claim and the repository's
    [test-auth-flow.js] expect 401. *)
Theorem C9_old_cookie_still_authenticates :
  let loginResponse :=
    login_POST Deployment.production Deployment.findByUsername Deployment.comparePassword
      Deployment.generateToken Deployment.issuedAt (Some "u1") (Some "Test@12345") in
  let logoutResponse :=
    logout_POST Deployment.production Deployment.parseToken Deployment.findOne
      (Deployment.issuedAt + 2000) Deployment.logoutRequest in
  status loginResponse = 200
  /\ cookie_value <$> res_cookies loginResponse !! "token" = Some Deployment.sessionToken
  /\ status (me_GET Deployment.production Deployment.parseToken Deployment.findOne
               (Deployment.issuedAt + 1000) Deployment.meRequest) = 200
  /\ status logoutResponse = 200
  /\ cookie_value <$> res_cookies logoutResponse !! "token" = Some ""
  /\ (res_cookies logoutResponse !! "token") ≫= (fun c => maxAge (cookie_options c)) = Some 0
  /\ status (me_GET Deployment.production Deployment.parseToken Deployment.findOne
               (Deployment.issuedAt + 3000) Deployment.meRequest) = 200.
Proof.
  repeat split; vm_compute; reflexivity.
Qed.

(** ** The route gate *)

Section RouteGateFacts.

Variable env : ProcessEnv.
Variable fetchVerify : NextRequest -> string -> FetchOutcome.

(** The statements after the [try]/[catch] are never executed: the body of
    [middleware] is its first six decisions. *)
Lemma middleware_live (r : NextRequest) :
  middleware env fetchVerify r =
    if String.eqb (method r) "OPTIONS" then preflightResponse r
    else if isPublicPath env (pathname r)
            || JS.startsWith (pathname r) "/_next/"
            || JS.startsWith (pathname r) "/static/"
            || JS.startsWith (pathname r) "/public/"
            || String.eqb (pathname r) "/favicon.ico"
    then initialResponse env r
    else if JS.startsWith (pathname r) "/api/" then initialResponse env r
    else if negb (JS.truthy_opt (getTokenFromRequest r)) then
      if negb (JS.startsWith (pathname r) "/login")
      then NextResponse.redirect (searchParams_set "returnUrl" (pathname r) loginURL)
      else initialResponse env r
    else if JS.startsWith (pathname r) "/login" || JS.startsWith (pathname r) "/auth/"
    then initialResponse env r
    else match fetchVerify r ("Bearer " +:+ template (getTokenFromRequest r)) with
         | FetchResponse false => NextResponse.redirect (expiredLoginURL r)
         | _ => initialResponse env r
         end.
Proof.
  unfold middleware, andThen.
  destruct (String.eqb (method r) "OPTIONS"); [reflexivity|].
  unfold publicPathStmt, returnResponseIf.
  destruct (isPublicPath env (pathname r) || JS.startsWith (pathname r) "/_next/"
            || JS.startsWith (pathname r) "/static/"
            || JS.startsWith (pathname r) "/public/"
            || String.eqb (pathname r) "/favicon.ico"); [reflexivity|].
  unfold apiStmt, returnResponseIf.
  destruct (JS.startsWith (pathname r) "/api/"); [reflexivity|].
  unfold noTokenStmt, token.
  destruct (negb (JS.truthy_opt (getTokenFromRequest r))).
  { destruct (negb (JS.startsWith (pathname r) "/login")); reflexivity. }
  unfold loginPageStmt, returnResponseIf.
  destruct (JS.startsWith (pathname r) "/login" || JS.startsWith (pathname r) "/auth/");
    [reflexivity|].
  unfold verifyStmt, token.
  destruct (fetchVerify r ("Bearer " +:+ template (getTokenFromRequest r))) as [[|]|];
    reflexivity.
Qed.

(** The three shapes of an answer of the gate. *)
Lemma middleware_cases (r : NextRequest) :
  middleware env fetchVerify r = preflightResponse r
  \/ middleware env fetchVerify r = initialResponse env r
  \/ exists target, middleware env fetchVerify r = NextResponse.redirect target.
Proof.
  rewrite middleware_live.
  repeat match goal with
         | |- context [if ?c then _ else _] => destruct c
         | |- context [match ?c with FetchResponse _ => _ | FetchThrows => _ end] =>
             destruct c as [[|]|]
         end; eauto.
Qed.

(** [setCorsHeaders] writes six headers and no other. *)
Lemma setCorsHeaders_other (response : Response) (origin k : string) :
  JS.includes corsHeaderNames k = false ->
  res_headers (setCorsHeaders response origin) !! k = res_headers response !! k.
Proof.
  intros Hk. unfold setCorsHeaders. simpl.
  repeat (rewrite lookup_insert_ne;
          [|intros <-; vm_compute in Hk; discriminate Hk]).
  reflexivity.
Qed.

Lemma setCorsHeaders_origin (response : Response) (origin : string) :
  res_headers (setCorsHeaders response origin) !! "Access-Control-Allow-Origin"
  = Some origin.
Proof.
  unfold setCorsHeaders. simpl.
  repeat (rewrite lookup_insert_ne; [|discriminate]).
  apply lookup_insert_eq.
Qed.

Lemma setCorsHeaders_status (response : Response) (origin : string) :
  status (setCorsHeaders response origin) = status response
  /\ kind (setCorsHeaders response origin) = kind response
  /\ res_cookies (setCorsHeaders response origin) = res_cookies response
  /\ body (setCorsHeaders response origin) = body response.
Proof. repeat split. Qed.

(** The status of an answer of the gate is 204, 200 or 307. *)
Lemma middleware_status (r : NextRequest) :
  status (middleware env fetchVerify r) = 204
  \/ status (middleware env fetchVerify r) = 200
  \/ status (middleware env fetchVerify r) = 307.
Proof.
  destruct (middleware_cases r) as [-> | [-> | [target ->]]].
  - left. reflexivity.
  - right; left. unfold initialResponse. destruct (isAllowedOrigin env r); reflexivity.
  - right; right. reflexivity.
Qed.

(** No answer of the gate sets a header outside the six CORS headers. *)
Lemma middleware_headers (r : NextRequest) (k : string) :
  JS.includes corsHeaderNames k = false ->
  res_headers (middleware env fetchVerify r) !! k = None.
Proof.
  intros Hk.
  destruct (middleware_cases r) as [-> | [-> | [target ->]]].
  - unfold preflightResponse. rewrite (setCorsHeaders_other _ _ _ Hk). reflexivity.
  - unfold initialResponse. destruct (isAllowedOrigin env r).
    + rewrite (setCorsHeaders_other _ _ _ Hk). reflexivity.
    + reflexivity.
  - reflexivity.
Qed.

(** No answer of the gate sets a cookie. *)
Lemma middleware_cookies (r : NextRequest) :
  res_cookies (middleware env fetchVerify r) = ∅.
Proof.
  destruct (middleware_cases r) as [-> | [-> | [target ->]]].
  - reflexivity.
  - unfold initialResponse. destruct (isAllowedOrigin env r); reflexivity.
  - reflexivity.
Qed.

(** The preflight half of C2 holds, for every origin: status 204 and
    [Access-Control-Allow-Origin] equal to the request's origin. *)
Lemma preflight_echoes_origin (r : NextRequest) :
  method r = "OPTIONS" ->
  status (middleware env fetchVerify r) = 204
  /\ res_headers (middleware env fetchVerify r) !! "Access-Control-Allow-Origin"
     = Some (requestOrigin r)
  /\ body (middleware env fetchVerify r) = None.
Proof.
  intros Hm. rewrite middleware_live, Hm, String.eqb_refl.
  split; [reflexivity|]. split; [|reflexivity].
  unfold preflightResponse. apply setCorsHeaders_origin.
Qed.

(** API paths pass through, whatever the origin. *)
Lemma api_passes_through (r : NextRequest) :
  method r <> "OPTIONS" ->
  JS.startsWith (pathname r) "/api/" = true ->
  middleware env fetchVerify r = initialResponse env r.
Proof.
  intros Hm Hapi. rewrite middleware_live.
  apply String.eqb_neq in Hm. rewrite Hm, Hapi.
  destruct (_ || _); reflexivity.
Qed.

(** The fail-open half of C7 holds: when the verification call raises, or
    answers OK, the request passes through. *)
Lemma verification_fault_passes_through (r : NextRequest) :
  reachesVerification env r = true ->
  fetchVerify r ("Bearer " +:+ template (getTokenFromRequest r)) <> FetchResponse false ->
  middleware env fetchVerify r = initialResponse env r.
Proof.
  unfold reachesVerification. intros Hreach Hfetch.
  repeat (apply andb_prop in Hreach as [Hreach ?]).
  rewrite middleware_live.
  repeat match goal with
         | H : negb ?b = true |- _ => apply negb_true_iff in H; rewrite H
         end.
  match goal with H : JS.truthy_opt _ = true |- _ => rewrite H end. simpl.
  destruct (fetchVerify r _) as [[|]|]; [reflexivity| |reflexivity].
  contradiction Hfetch. reflexivity.
Qed.

End RouteGateFacts.

(** ** Cross-origin requests to the API (C2) *)

(** C2 on the code: the gate never answers 403.  A [GET /api/deposits] from
    [https://evil.example], an origin outside the allow-list, passes through
    as the plain [NextResponse.next()], without body and without CORS
    headers; the two 403 branches of the source sit after the [try]/[catch]
    whose every path returns. *)
Theorem C2_disallowed_origin_api_passes_through :
  (forall env fetchVerify r, (status (middleware env fetchVerify r) =? 403) = false)
  /\ JS.includes allowedOrigins (requestOrigin Deployment.crossOriginApiRequest) = false
  /\ JS.startsWith (pathname Deployment.crossOriginApiRequest) "/api/" = true
  /\ (forall fetchVerify,
        middleware Deployment.production fetchVerify Deployment.crossOriginApiRequest
        = NextResponse.next).
Proof.
  split; [|split; [|split]].
  - intros env fetchVerify r.
    destruct (middleware_status env fetchVerify r) as [-> | [-> | ->]]; reflexivity.
  - vm_compute. reflexivity.
  - reflexivity.
  - intros fetchVerify. rewrite api_passes_through.
    + vm_compute. reflexivity.
    + discriminate.
    + reflexivity.
Qed.

(** ** Security headers (C6) *)

(** C6 on the code: no answer of the gate, pass-through or not, carries any
    of the four security headers; the request for the home page passes
    through with no header at all.  The statements that set
    [securityHeaders] sit after the [try]/[catch] whose every path returns. *)
Theorem C6_pass_through_lacks_security_headers :
  (forall env fetchVerify r,
      res_headers (middleware env fetchVerify r) !! "X-Content-Type-Options" = None
      /\ res_headers (middleware env fetchVerify r) !! "X-Frame-Options" = None
      /\ res_headers (middleware env fetchVerify r) !! "Referrer-Policy" = None
      /\ res_headers (middleware env fetchVerify r) !! "Permissions-Policy" = None)
  /\ (forall fetchVerify,
        kind (middleware Deployment.production fetchVerify Deployment.homeRequest)
        = PassThrough
        /\ res_headers (middleware Deployment.production fetchVerify Deployment.homeRequest)
           = ∅).
Proof.
  split.
  - intros env fetchVerify r.
    repeat split; apply middleware_headers; reflexivity.
  - intros fetchVerify. rewrite middleware_live. vm_compute. split; reflexivity.
Qed.

(** ** A rejected token on a protected page (C7) *)

(** C7 on the code: when the request gets to the verification call and the
    endpoint answers non-OK, the gate returns the redirect to
    [/login?returnUrl=<pathname>&expired=true], and that answer sets no
    cookie: the source clears the [token] cookie on the local [response] and
    returns the fresh object of [NextResponse.redirect]. *)
Theorem C7_rejected_token_redirect_sets_no_cookie
    (env : ProcessEnv) (fetchVerify : NextRequest -> string -> FetchOutcome)
    (r : NextRequest) :
  reachesVerification env r = true ->
  fetchVerify r ("Bearer " +:+ template (getTokenFromRequest r)) = FetchResponse false ->
  middleware env fetchVerify r = NextResponse.redirect (expiredLoginURL r)
  /\ res_cookies (middleware env fetchVerify r) !! "token" = None.
Proof.
  unfold reachesVerification. intros Hreach Hfetch.
  repeat (apply andb_prop in Hreach as [Hreach ?]).
  split; [|rewrite middleware_cookies; reflexivity].
  rewrite middleware_live.
  repeat match goal with
         | H : negb ?b = true |- _ => apply negb_true_iff in H; rewrite H
         end.
  match goal with H : JS.truthy_opt _ = true |- _ => rewrite H end. simpl.
  rewrite Hfetch. reflexivity.
Qed.

(** The theorem at [GET /dashboard] with the session cookie, when the
    verification endpoint answers non-OK. *)
Lemma C7_rejected_token_witness :
  middleware Deployment.production Deployment.verifyRejects Deployment.dashboardRequest
  = NextResponse.redirect (expiredLoginURL Deployment.dashboardRequest)
  /\ res_cookies (middleware Deployment.production Deployment.verifyRejects
                    Deployment.dashboardRequest) !! "token" = None.
Proof.
  apply (C7_rejected_token_redirect_sets_no_cookie Deployment.production
           Deployment.verifyRejects Deployment.dashboardRequest).
  - vm_compute. reflexivity.
  - reflexivity.
Defined.

(** ** The client cache (C8) *)

Section ClientFacts.

Variable force : bool.
Variable currentTime : Z.
Variable st : ClientState.

(** Within the re-check window and without [force], nothing happens. *)
Lemma checkAuth_skips (me : FetchJson) :
  reachesNetwork force currentTime st = false ->
  checkAuth force currentTime me st = st.
Proof.
  unfold reachesNetwork, checkAuth. intros H.
  apply negb_false_iff in H. rewrite H. reflexivity.
Qed.

(** A failure answer clears the user state and the [auth_user] entry. *)
Lemma checkAuth_failure_clears (ok : bool) (data : Json) :
  reachesNetwork force currentTime st = true ->
  data <> JNull ->
  ok && json_truthy (prop "success" data) = false ->
  client_user (checkAuth force currentTime (JsonResponse ok data) st) = None
  /\ localStorage (checkAuth force currentTime (JsonResponse ok data) st)
       !! USER_STORAGE_KEY = None.
Proof.
  unfold reachesNetwork, checkAuth. intros H Hdata Hfail.
  apply negb_true_iff in H. rewrite H.
  destruct data; [contradiction Hdata; reflexivity | ..];
    rewrite Hfail;
    (split; [destruct (lastChecked st =? 0); reflexivity|]);
    simpl; rewrite lookup_insert_ne by discriminate;
    destruct (lastChecked st =? 0); simpl; apply lookup_delete_eq.
Qed.

(** A [null] body is handled like a network error: nothing is cleared. *)
Lemma checkAuth_null_body_keeps (ok : bool) :
  checkAuth force currentTime (JsonResponse ok JNull) st
  = checkAuth force currentTime FetchFails st.
Proof. reflexivity. Qed.

(** A success answer stores the user. *)
Lemma checkAuth_success_stores (data : Json) :
  reachesNetwork force currentTime st = true ->
  json_truthy (prop "success" data) = true ->
  client_user (checkAuth force currentTime (JsonResponse true data) st)
    = prop "user" data
  /\ localStorage (checkAuth force currentTime (JsonResponse true data) st)
       !! USER_STORAGE_KEY = Some (cacheEntry (prop "user" data) currentTime).
Proof.
  unfold reachesNetwork, checkAuth. intros H Hok.
  apply negb_true_iff in H. rewrite H.
  destruct data; try discriminate Hok.
  rewrite Hok.
  split; [destruct (lastChecked st =? 0); reflexivity|].
  simpl. rewrite lookup_insert_ne by discriminate.
  destruct (lastChecked st =? 0); simpl; apply lookup_insert_eq.
Qed.

(** A network-level error leaves the user state and every entry of
    [localStorage] but the time of the last check as they were. *)
Lemma checkAuth_network_error_keeps (k : string) :
  k <> LAST_CHECKED_KEY ->
  client_user (checkAuth force currentTime FetchFails st) = client_user st
  /\ localStorage (checkAuth force currentTime FetchFails st) !! k
     = localStorage st !! k.
Proof.
  intros Hk. unfold checkAuth.
  destruct (negb force && negb (lastChecked st =? 0)
            && (currentTime - lastChecked st <? 5 * 60 * 1000)); [split; reflexivity|].
  split; [destruct (lastChecked st =? 0); reflexivity|].
  simpl. rewrite lookup_insert_ne by (intros Heq; apply Hk; symmetry; exact Heq).
  destruct (lastChecked st =? 0); reflexivity.
Qed.

(** [checkAuth] never reads or writes the [auth_user_cache] entry. *)
Lemma checkAuth_frames_auth_cache (me : FetchJson) :
  localStorage (checkAuth force currentTime me st) !! AUTH_CACHE_KEY
  = localStorage st !! AUTH_CACHE_KEY.
Proof.
  unfold checkAuth.
  destruct (negb force && negb (lastChecked st =? 0)
            && (currentTime - lastChecked st <? 5 * 60 * 1000)); [reflexivity|].
  simpl. rewrite lookup_insert_ne by discriminate.
  destruct me as [ok data|].
  - destruct data;
      try (destruct (lastChecked st =? 0); reflexivity);
      destruct (ok && json_truthy _), (lastChecked st =? 0); simpl;
      first [ rewrite lookup_insert_ne by discriminate; reflexivity
            | rewrite lookup_delete_ne by discriminate; reflexivity ].
  - destruct (lastChecked st =? 0); reflexivity.
Qed.

End ClientFacts.

(** [login] writes the [auth_user_cache] entry; [logout] removes it. *)
Lemma login_writes_auth_cache (now : Z) (ok : bool) (data u : Json) (st : ClientState) :
  json_truthy (prop "success" data) = true ->
  prop "user" data = Some u ->
  json_truthy (Some u) = true ->
  localStorage (fst (login now (JsonResponse ok data) st)) !! AUTH_CACHE_KEY
  = Some (cacheEntry (Some u) now).
Proof.
  intros Hs Hu Ht. unfold login. rewrite Hs. simpl.
  unfold setAuthCache. rewrite Hu, Ht. simpl. apply lookup_insert_eq.
Qed.

Lemma logout_removes_auth_cache (now : Z) (st : ClientState) :
  localStorage (logout now st) !! AUTH_CACHE_KEY = None
  /\ client_user (logout now st) = None.
Proof. unfold logout. simpl. split; [apply lookup_delete_eq | reflexivity]. Qed.

(** C8 on the code: [checkAuth] leaves the [auth_user_cache] entry, the one
    [login] writes through [setAuthCache], as it was, on every outcome of the
    call; a failed re-verification removes the [auth_user] entry instead.
    After a login of [u1] and a forced [checkAuth] answered with 401, the user
    state is cleared and the cache entry written at login is still there. *)
Theorem C8_failed_recheck_keeps_login_cache :
  (forall force currentTime me st,
      localStorage (checkAuth force currentTime me st) !! AUTH_CACHE_KEY
      = localStorage st !! AUTH_CACHE_KEY)
  /\ (let afterLogin := fst (login Deployment.issuedAt Deployment.loginOk
                               Deployment.freshClient) in
      let afterCheck := checkAuth true (Deployment.issuedAt + 1000)
                          Deployment.meUnauthorized afterLogin in
      reachesNetwork true (Deployment.issuedAt + 1000) afterLogin = true
      /\ localStorage afterLogin !! AUTH_CACHE_KEY
         = Some (cacheEntry (Some Deployment.clientUser) Deployment.issuedAt)
      /\ client_user afterCheck = None
      /\ localStorage afterCheck !! USER_STORAGE_KEY = None
      /\ localStorage afterCheck !! AUTH_CACHE_KEY
         = Some (cacheEntry (Some Deployment.clientUser) Deployment.issuedAt)).
Proof.
  split.
  - intros force currentTime me st. apply checkAuth_frames_auth_cache.
  - repeat split; vm_compute; reflexivity.
Qed.

(** * Further properties of the code *)

(** ** The role authorizer *)

(** A resolved user whose role is not among the required ones gets the 403
    answer, whatever the handler is: the handler is not called. *)
Theorem withAuth_role_mismatch_is_forbidden
    (env : ProcessEnv) (parseToken : string -> ParseOutcome)
    (findOne : string -> StoreOutcome) (now : Z)
    (handler : AuthRequest -> HandlerOutcome) (roles : list string)
    (r : NextRequest) (u : User) :
  authenticateRequest parseToken findOne now r = auth_ok u ->
  roles <> [] ->
  hasRole roles u = false ->
  withAuth env parseToken findOne now handler roles r
  = NextResponse.json
      (JObj [("success", JBool false);
             ("message", JStr "Forbidden: Insufficient permissions")])
      403.
Proof.
  intros Hauth Hroles Hrole.
  rewrite (withAuth_success _ _ _ _ _ _ _ _ Hauth), Hrole.
  destruct roles as [|ro roles']; [contradiction Hroles; reflexivity|].
  reflexivity.
Qed.

Lemma withAuth_role_mismatch_witness :
  withAuth Deployment.production Deployment.parseToken Deployment.findOne
    (Deployment.issuedAt + 1000) Deployment.throwingHandler ["admin"]
    Deployment.meRequest
  = NextResponse.json
      (JObj [("success", JBool false);
             ("message", JStr "Forbidden: Insufficient permissions")])
      403.
Proof.
  apply (withAuth_role_mismatch_is_forbidden Deployment.production
           Deployment.parseToken Deployment.findOne (Deployment.issuedAt + 1000)
           Deployment.throwingHandler ["admin"] Deployment.meRequest
           (userWithoutPassword Deployment.u1)).
  - vm_compute. reflexivity.
  - discriminate.
  - reflexivity.
Defined.

(** [GET /api/auth/me] and [POST /api/auth/logout] are wrapped with the
    default roles [['user']]: a resolved user of any other role, an
    administrator included, or of no role, gets 403 from both, and the logout
    answer sets no cookie. *)
Theorem default_roles_shut_out_other_roles
    (env : ProcessEnv) (parseToken : string -> ParseOutcome)
    (findOne : string -> StoreOutcome) (now : Z) (r : NextRequest) (u : User) :
  authenticateRequest parseToken findOne now r = auth_ok u ->
  role u <> Some "user" ->
  status (me_GET env parseToken findOne now r) = 403
  /\ status (logout_POST env parseToken findOne now r) = 403
  /\ res_cookies (logout_POST env parseToken findOne now r) = ∅.
Proof.
  intros Hauth Hrole.
  assert (Hno : hasRole defaultRoles u = false).
  { unfold hasRole, defaultRoles. destruct (role u) as [ro|]; [|reflexivity].
    simpl. rewrite orb_false_r. apply String.eqb_neq.
    intros ->. apply Hrole. reflexivity. }
  unfold me_GET, logout_POST.
  rewrite !(withAuth_success _ _ _ _ _ _ _ _ Hauth), Hno.
  repeat split.
Qed.

Lemma default_roles_witness :
  status (me_GET Deployment.production Deployment.parseToken Fixtures.findOne
            (Deployment.issuedAt + 1000) (Fixtures.adminRequest "GET" "/api/auth/me"))
  = 403
  /\ status (logout_POST Deployment.production Deployment.parseToken Fixtures.findOne
               (Deployment.issuedAt + 1000)
               (Fixtures.adminRequest "GET" "/api/auth/me")) = 403
  /\ res_cookies (logout_POST Deployment.production Deployment.parseToken
                    Fixtures.findOne (Deployment.issuedAt + 1000)
                    (Fixtures.adminRequest "GET" "/api/auth/me")) = ∅.
Proof.
  apply (default_roles_shut_out_other_roles Deployment.production
           Deployment.parseToken Fixtures.findOne (Deployment.issuedAt + 1000)
           (Fixtures.adminRequest "GET" "/api/auth/me")
           (userWithoutPassword Fixtures.admin)).
  - vm_compute. reflexivity.
  - discriminate.
Defined.

(** ** The request authenticator *)

(** The result of [authenticateRequest] is either a user without its
    [password] field and no error, or no user and one of six messages. *)
Theorem authenticate_result_shapes
    (parseToken : string -> ParseOutcome) (findOne : string -> StoreOutcome)
    (now : Z) (r : NextRequest) :
  (exists u, authenticateRequest parseToken findOne now r
             = {| user := Some u; error := None |}
             /\ password u = None)
  \/ (exists msg, authenticateRequest parseToken findOne now r
                  = {| user := None; error := Some msg |}
                  /\ In msg [ "No token provided"; "Invalid token format";
                              "Token expired"; "User not found";
                              "Database error during authentication";
                              "Authentication failed" ]).
Proof.
  unfold authenticateRequest, auth_fail, auth_ok.
  destruct (cookies r !! "token") as [tok|];
    [|right; eexists; split; [reflexivity | simpl; tauto]].
  destruct (JS.truthy tok); simpl;
    [|right; eexists; split; [reflexivity | simpl; tauto]].
  destruct (parseToken tok) as [td| |];
    try (right; eexists; split; [reflexivity | simpl; tauto]).
  destruct (now - timestamp td >? TOKEN_MAX_AGE_MS);
    [right; eexists; split; [reflexivity | simpl; tauto]|].
  destruct (findOne (userId td)) as [u| |];
    try (right; eexists; split; [reflexivity | simpl; tauto]).
  left. eexists. split; reflexivity.
Qed.

(** The expiry test is strict and one-sided: a token that parses and is at
    most seven days old, exactly seven days or stamped in the future
    included, resolves to the stored user without its password. *)
Theorem token_accepted_up_to_seven_days
    (parseToken : string -> ParseOutcome) (findOne : string -> StoreOutcome)
    (now : Z) (r : NextRequest) (tok : string) (td : TokenData) (u : User) :
  cookies r !! "token" = Some tok ->
  JS.truthy tok = true ->
  parseToken tok = Parsed td ->
  now - timestamp td <= TOKEN_MAX_AGE_MS ->
  findOne (userId td) = Found u ->
  authenticateRequest parseToken findOne now r
  = {| user := Some {| _id := _id u; username := username u; role := role u;
                       password := None |};
       error := None |}.
Proof.
  intros Hc Ht Hp Hage Hfound.
  rewrite (authenticate_parsed _ _ _ _ _ _ Hc Ht Hp).
  replace (now - timestamp td >? TOKEN_MAX_AGE_MS) with false
    by (symmetry; rewrite Z.gtb_ltb; apply Z.ltb_ge; exact Hage).
  rewrite Hfound. reflexivity.
Qed.

(** At the last valid instant, and for a clock that runs behind the stamp. *)
Lemma token_accepted_witness :
  authenticateRequest Deployment.parseToken Deployment.findOne
    Fixtures.lastValidInstant Deployment.meRequest
  = {| user := Some {| _id := _id Deployment.u1; username := "u1";
                       role := Some "user"; password := None |};
       error := None |}
  /\ authenticateRequest Deployment.parseToken Deployment.findOne
       (Deployment.issuedAt - 5000) Deployment.meRequest
     = {| user := Some {| _id := _id Deployment.u1; username := "u1";
                          role := Some "user"; password := None |};
          error := None |}.
Proof.
  split.
  - apply (token_accepted_up_to_seven_days Deployment.parseToken Deployment.findOne
             Fixtures.lastValidInstant Deployment.meRequest Deployment.sessionToken
             {| userId := _id Deployment.u1; timestamp := Deployment.issuedAt |}
             Deployment.u1);
      vm_compute; first [reflexivity | discriminate].
  - apply (token_accepted_up_to_seven_days Deployment.parseToken Deployment.findOne
             (Deployment.issuedAt - 5000) Deployment.meRequest Deployment.sessionToken
             {| userId := _id Deployment.u1; timestamp := Deployment.issuedAt |}
             Deployment.u1);
      vm_compute; first [reflexivity | discriminate].
Defined.

(** The first field of a [split] never contains the separator. *)
Lemma split_head_without_separator (sep : ascii) (s : string) :
  exists p ps, JS.split sep s = p :: ps /\ JS.contains sep p = false.
Proof.
  induction s as [|c s (p & ps & IH & Hp)]; simpl.
  - eexists _, _. split; reflexivity.
  - destruct (Ascii.eqb c sep) eqn:Hc.
    + eexists _, _. split; reflexivity.
    + rewrite IH. eexists _, _. split; [reflexivity|].
      simpl. rewrite Hc, Hp. reflexivity.
Qed.

(** The 500 body of [withAuth] has a [_debug] payload exactly when debugging
    is on ([DEBUG_AUTH] is ['true'], or [NODE_ENV] is not ['production']),
    and the payload then gives as [path] the request URL cut at the first
    ['?']: the query string, where a token may travel, is never part of it. *)
Theorem debug_path_drops_query_string
    (env : ProcessEnv) (r : NextRequest) (t : Thrown) :
  JS.contains "?" (basePath r) = false
  /\ JS.startsWith (url r) (basePath r) = true
  /\ (if debugEnabled env
      then prop "_debug" (handlerErrorBody env r t)
           = Some (JObj [("error", JStr (errorMessage t));
                         ("path", JStr (basePath r))])
      else prop "_debug" (handlerErrorBody env r t) = None)
  /\ debugEnabled env
     = bool_decide (DEBUG_AUTH env = Some "true")
       || negb (bool_decide (NODE_ENV env = Some "production")).
Proof.
  split; [|split].
  - unfold basePath.
    destruct (split_head_without_separator "?" (url r)) as (p & ps & -> & Hp).
    exact Hp.
  - unfold basePath. induction (url r) as [|c s IH]; simpl; [reflexivity|].
    destruct (Ascii.eqb c "?"); [reflexivity|].
    destruct (JS.split "?" s) as [|w ws]; simpl.
    + rewrite Ascii.eqb_refl. reflexivity.
    + rewrite Ascii.eqb_refl. exact IH.
  - split; [|reflexivity]. rewrite handlerErrorBody_debug.
    destruct (debugEnabled env); reflexivity.
Qed.

(** ** The route gate *)

(** Every answer of the gate is the preflight answer, the pass-through, or a
    redirect to [/login] that carries the path as [returnUrl]: the gate never
    answers 401 or 403 and never sends a visitor who has a token away from
    the login or register page. *)
Theorem gate_answers
    (env : ProcessEnv) (fetchVerify : NextRequest -> string -> FetchOutcome)
    (r : NextRequest) :
  (method r = "OPTIONS" /\ kind (middleware env fetchVerify r) = Terminal
   /\ status (middleware env fetchVerify r) = 204)
  \/ (method r <> "OPTIONS" /\ kind (middleware env fetchVerify r) = PassThrough
      /\ status (middleware env fetchVerify r) = 200
      /\ body (middleware env fetchVerify r) = None)
  \/ (method r <> "OPTIONS"
      /\ exists rest,
           middleware env fetchVerify r
           = NextResponse.redirect
               {| url_pathname := "/login";
                  searchParams := ("returnUrl", pathname r) :: rest |}).
Proof.
  rewrite middleware_live.
  destruct (String.eqb_spec (method r) "OPTIONS") as [Hm|Hm].
  { left. repeat split. exact Hm. }
  right.
  assert (Hinit : kind (initialResponse env r) = PassThrough
                  /\ status (initialResponse env r) = 200
                  /\ body (initialResponse env r) = None).
  { unfold initialResponse. destruct (isAllowedOrigin env r); repeat split. }
  repeat match goal with
         | |- context [if ?c then _ else _] => destruct c
         | |- context [match ?c with FetchResponse _ => _ | FetchThrows => _ end] =>
             destruct c as [[|]|]
         end;
    first [ left; split; [exact Hm | exact Hinit]
          | right; split; [exact Hm | eexists; reflexivity] ].
Qed.

(** A visitor without a token on a page that is neither public nor under
    [/api/] nor a login page is redirected to [/login?returnUrl=<path>],
    whatever the verification endpoint would say. *)
Theorem gate_redirects_visitor_without_token
    (env : ProcessEnv) (fetchVerify : NextRequest -> string -> FetchOutcome)
    (r : NextRequest) :
  method r <> "OPTIONS" ->
  isPublicPath env (pathname r) = false ->
  JS.startsWith (pathname r) "/_next/" = false ->
  JS.startsWith (pathname r) "/static/" = false ->
  JS.startsWith (pathname r) "/public/" = false ->
  JS.startsWith (pathname r) "/api/" = false ->
  JS.startsWith (pathname r) "/login" = false ->
  JS.truthy_opt (getTokenFromRequest r) = false ->
  middleware env fetchVerify r
  = NextResponse.redirect
      {| url_pathname := "/login"; searchParams := [("returnUrl", pathname r)] |}.
Proof.
  intros Hm Hpub Hnext Hstatic Hpublic Hapi Hlogin Htok.
  rewrite middleware_live.
  apply String.eqb_neq in Hm. rewrite Hm, Hpub, Hnext, Hstatic, Hpublic, Hapi, Htok, Hlogin.
  simpl.
  destruct (String.eqb (pathname r) "/favicon.ico") eqn:Hfav; [|reflexivity].
  apply String.eqb_eq in Hfav. rewrite Hfav in Hpub. vm_compute in Hpub.
  destruct (isDevelopment env); discriminate Hpub.
Qed.

Lemma gate_redirects_witness :
  middleware Deployment.production Deployment.verifyAccepts
    GateFixtures.anonymousDashboard
  = NextResponse.redirect
      {| url_pathname := "/login"; searchParams := [("returnUrl", "/dashboard")] |}.
Proof.
  apply (gate_redirects_visitor_without_token Deployment.production
           Deployment.verifyAccepts GateFixtures.anonymousDashboard);
    first [discriminate | reflexivity].
Defined.

(** The verification endpoint matters only for the requests that reach the
    call: for a preflight, a public path, an API path, a request without
    token and a login or [/auth/] page, the answer is the same whatever the
    endpoint does. *)
Theorem gate_ignores_endpoint_unless_reached
    (env : ProcessEnv) (fetchVerify fetchVerify' : NextRequest -> string -> FetchOutcome)
    (r : NextRequest) :
  reachesVerification env r = false ->
  middleware env fetchVerify r = middleware env fetchVerify' r.
Proof.
  unfold reachesVerification. intros H. rewrite !middleware_live.
  destruct (String.eqb (method r) "OPTIONS"); [reflexivity|].
  destruct (isPublicPath env (pathname r) || JS.startsWith (pathname r) "/_next/"
            || JS.startsWith (pathname r) "/static/"
            || JS.startsWith (pathname r) "/public/"
            || String.eqb (pathname r) "/favicon.ico"); [reflexivity|].
  destruct (JS.startsWith (pathname r) "/api/"); [reflexivity|].
  destruct (JS.truthy_opt (getTokenFromRequest r)); [|reflexivity].
  destruct (JS.startsWith (pathname r) "/login" || JS.startsWith (pathname r) "/auth/");
    [reflexivity|].
  discriminate H.
Qed.

Lemma gate_ignores_endpoint_witness :
  middleware Deployment.production Deployment.verifyRejects Deployment.crossOriginApiRequest
  = middleware Deployment.production Deployment.verifyAccepts Deployment.crossOriginApiRequest.
Proof.
  apply (gate_ignores_endpoint_unless_reached Deployment.production
           Deployment.verifyRejects Deployment.verifyAccepts
           Deployment.crossOriginApiRequest).
  reflexivity.
Defined.

(** Fail-open: when the verification call raises, the request passes through
    exactly as when the endpoint answers OK. *)
Theorem gate_fails_open
    (env : ProcessEnv) (fetchVerify : NextRequest -> string -> FetchOutcome)
    (r : NextRequest) :
  reachesVerification env r = true ->
  fetchVerify r ("Bearer " +:+ template (getTokenFromRequest r)) = FetchThrows
  \/ fetchVerify r ("Bearer " +:+ template (getTokenFromRequest r)) = FetchResponse true ->
  middleware env fetchVerify r = initialResponse env r
  /\ kind (middleware env fetchVerify r) = PassThrough.
Proof.
  intros Hreach Hfetch.
  assert (H : middleware env fetchVerify r = initialResponse env r).
  { apply verification_fault_passes_through; [exact Hreach|].
    destruct Hfetch as [-> | ->]; discriminate. }
  split; [exact H|]. rewrite H. unfold initialResponse.
  destruct (isAllowedOrigin env r); reflexivity.
Qed.

Lemma gate_fails_open_witness :
  middleware Deployment.production Deployment.verifyUnreachable Deployment.dashboardRequest
  = initialResponse Deployment.production Deployment.dashboardRequest
  /\ kind (middleware Deployment.production Deployment.verifyUnreachable
             Deployment.dashboardRequest) = PassThrough.
Proof.
  apply (gate_fails_open Deployment.production Deployment.verifyUnreachable
           Deployment.dashboardRequest).
  - vm_compute. reflexivity.
  - left. reflexivity.
Defined.

(** Apart from the preflight, an answer is the initial response or a redirect. *)
Lemma middleware_cases_not_preflight
    (env : ProcessEnv) (fetchVerify : NextRequest -> string -> FetchOutcome)
    (r : NextRequest) :
  method r <> "OPTIONS" ->
  middleware env fetchVerify r = initialResponse env r
  \/ exists target, middleware env fetchVerify r = NextResponse.redirect target.
Proof.
  intros Hm. apply String.eqb_neq in Hm. rewrite middleware_live, Hm.
  repeat match goal with
         | |- context [if ?c then _ else _] => destruct c
         | |- context [match ?c with FetchResponse _ => _ | FetchThrows => _ end] =>
             destruct c as [[|]|]
         end; eauto.
Qed.

(** A pass-through answer carries the CORS headers exactly when the origin
    is allowed, and then [Access-Control-Allow-Origin] is that origin; a
    redirect carries none of the six CORS headers, allowed origin or not. *)
Theorem pass_through_cors_follows_allow_list
    (env : ProcessEnv) (fetchVerify : NextRequest -> string -> FetchOutcome)
    (r : NextRequest) :
  method r <> "OPTIONS" ->
  match kind (middleware env fetchVerify r) with
  | PassThrough =>
      res_headers (middleware env fetchVerify r) !! "Access-Control-Allow-Origin"
      = (if isAllowedOrigin env r then Some (requestOrigin r) else None)
      /\ res_headers (middleware env fetchVerify r) !! "Access-Control-Allow-Credentials"
         = (if isAllowedOrigin env r then Some "true" else None)
  | _ =>
      forall k, JS.includes corsHeaderNames k = true ->
                res_headers (middleware env fetchVerify r) !! k = None
  end.
Proof.
  intros Hm.
  destruct (middleware_cases_not_preflight env fetchVerify r Hm)
    as [Hinit | [target Hred]].
  - rewrite Hinit. unfold initialResponse.
    destruct (isAllowedOrigin env r); simpl; split; reflexivity.
  - rewrite Hred. intros k _. reflexivity.
Qed.

Lemma pass_through_cors_witness :
  match kind (middleware Deployment.production Deployment.verifyAccepts
                GateFixtures.allowedHome) with
  | PassThrough =>
      res_headers (middleware Deployment.production Deployment.verifyAccepts
                     GateFixtures.allowedHome) !! "Access-Control-Allow-Origin"
      = (if isAllowedOrigin Deployment.production GateFixtures.allowedHome
         then Some (requestOrigin GateFixtures.allowedHome) else None)
      /\ res_headers (middleware Deployment.production Deployment.verifyAccepts
                        GateFixtures.allowedHome) !! "Access-Control-Allow-Credentials"
         = (if isAllowedOrigin Deployment.production GateFixtures.allowedHome
            then Some "true" else None)
  | _ =>
      forall k, JS.includes corsHeaderNames k = true ->
                res_headers (middleware Deployment.production Deployment.verifyAccepts
                               GateFixtures.allowedHome) !! k = None
  end.
Proof.
  apply (pass_through_cors_follows_allow_list Deployment.production
           Deployment.verifyAccepts GateFixtures.allowedHome).
  discriminate.
Defined.

(** The preflight answer does not consult the allow-list: whatever the
    origin, the answer is 204 without body, echoes the origin (the empty
    string when the header is absent) and allows credentials. *)
Theorem preflight_echoes_any_origin
    (env : ProcessEnv) (fetchVerify : NextRequest -> string -> FetchOutcome)
    (r : NextRequest) :
  method r = "OPTIONS" ->
  status (middleware env fetchVerify r) = 204
  /\ body (middleware env fetchVerify r) = None
  /\ res_headers (middleware env fetchVerify r) !! "Access-Control-Allow-Origin"
     = Some (JS.or_else (headers r !! "origin") "")
  /\ res_headers (middleware env fetchVerify r) !! "Access-Control-Allow-Credentials"
     = Some "true"
  /\ res_headers (middleware env fetchVerify r) !! "Vary" = Some "Origin".
Proof.
  intros Hm. rewrite middleware_live, Hm, String.eqb_refl.
  unfold preflightResponse, requestOrigin. repeat split.
Qed.

Lemma preflight_echoes_witness :
  status (middleware Deployment.production Deployment.verifyAccepts
            GateFixtures.foreignPreflight) = 204
  /\ body (middleware Deployment.production Deployment.verifyAccepts
             GateFixtures.foreignPreflight) = None
  /\ res_headers (middleware Deployment.production Deployment.verifyAccepts
                    GateFixtures.foreignPreflight) !! "Access-Control-Allow-Origin"
     = Some (JS.or_else (headers GateFixtures.foreignPreflight !! "origin") "")
  /\ res_headers (middleware Deployment.production Deployment.verifyAccepts
                    GateFixtures.foreignPreflight) !! "Access-Control-Allow-Credentials"
     = Some "true"
  /\ res_headers (middleware Deployment.production Deployment.verifyAccepts
                    GateFixtures.foreignPreflight) !! "Vary" = Some "Origin".
Proof.
  apply (preflight_echoes_any_origin Deployment.production Deployment.verifyAccepts
           GateFixtures.foreignPreflight).
  reflexivity.
Defined.

(** ** Public paths *)

Lemma startsWith_append (p s : string) : JS.startsWith (p +:+ s) p = true.
Proof.
  induction p as [|c p IH]; simpl; [reflexivity|].
  rewrite Ascii.eqb_refl. exact IH.
Qed.

Lemma matchesPrefix_intro (pathname p : string) (paths : list string) :
  In p paths ->
  pathname = p \/ JS.startsWith pathname (p +:+ "/") = true ->
  matchesPrefix pathname paths = true.
Proof.
  intros Hin Hp. unfold matchesPrefix. apply existsb_exists.
  exists p. split; [exact Hin|].
  destruct Hp as [-> | ->]; [rewrite String.eqb_refl; reflexivity|].
  apply orb_true_r.
Qed.

(** A public entry makes itself and everything below it public, in every
    environment: the match is on whole path segments.  In particular every
    path under [/api/auth], [/api/settings] and [/] followed by a second
    slash is public. *)
Theorem public_entry_covers_its_subtree (env : ProcessEnv) (p rest : string) :
  In p [ "/"; "/login"; "/register"; "/forgot-password"; "/reset-password";
         "/api/auth"; "/api/settings"; "/api/public";
         "/_next"; "/favicon.ico"; "/icons"; "/images"; "/fonts";
         "/api/rates"; "/api/markets"; "/api/announcements" ] ->
  isPublicPath env p = true
  /\ isPublicPath env (p +:+ "/" +:+ rest) = true.
Proof.
  intros Hin. unfold isPublicPath. split.
  - apply (matchesPrefix_intro _ p); [apply in_or_app; left; exact Hin | left; reflexivity].
  - apply (matchesPrefix_intro _ p); [apply in_or_app; left; exact Hin|].
    right. clear Hin. induction p as [|c p IH]; simpl; [reflexivity|].
    rewrite Ascii.eqb_refl. exact IH.
Qed.

Lemma public_entry_witness :
  isPublicPath Deployment.production "/api/auth" = true
  /\ isPublicPath Deployment.production ("/api/auth" +:+ "/" +:+ "logout") = true.
Proof.
  apply (public_entry_covers_its_subtree Deployment.production "/api/auth" "logout").
  simpl. tauto.
Defined.

(** ** The token in the [Authorization] header *)

Lemma split_first_field (sep : ascii) (a b : string) :
  JS.contains sep a = false ->
  JS.split sep (a +:+ String sep b) = a :: JS.split sep b.
Proof.
  induction a as [|c a IH]; simpl.
  - intros _. rewrite Ascii.eqb_refl. reflexivity.
  - intros H. apply orb_false_iff in H as [Hc Ha].
    rewrite Hc, (IH Ha). reflexivity.
Qed.

(** Of a header ['Bearer ' + a + ' ' + b] the route gate takes [a], the text
    up to the next space, and looks neither at the cookie nor at the query
    string; when [a] is empty the gate goes on as if the request had no
    token, the cookie notwithstanding. *)
Theorem bearer_token_is_first_word (r : NextRequest) (a b : string) :
  headers r !! "authorization" = Some ("Bearer " +:+ a +:+ " " +:+ b) ->
  JS.contains " " a = false ->
  getTokenFromRequest r = Some a
  /\ JS.truthy_opt (getTokenFromRequest r) = negb (String.eqb a "").
Proof.
  intros Hh Ha.
  assert (H : getTokenFromRequest r = Some a).
  { unfold getTokenFromRequest. rewrite Hh.
    change (JS.startsWith ("Bearer " +:+ a +:+ " " +:+ b) "Bearer ") with true.
    cbv iota. rewrite split_bearer.
    change (a +:+ " " +:+ b) with (a +:+ String " " b).
    rewrite (split_first_field _ _ _ Ha). reflexivity. }
  rewrite H. split; reflexivity.
Qed.

(** The session cookie of [u1] behind a header whose token part is empty. *)
Lemma bearer_token_witness :
  getTokenFromRequest GateFixtures.emptyBearerDashboard = Some ""
  /\ JS.truthy_opt (getTokenFromRequest GateFixtures.emptyBearerDashboard)
     = negb (String.eqb "" "").
Proof.
  apply (bearer_token_is_first_word GateFixtures.emptyBearerDashboard ""
           Deployment.sessionToken).
  - reflexivity.
  - reflexivity.
Defined.

(** ** The client hook *)

(** After a call of [checkAuth] that went to the network at a time other
    than 0, a call without [force] less than five minutes later changes
    nothing, whatever the endpoint would have answered: one network call per
    window. *)
Theorem checkAuth_once_per_window
    (force : bool) (t t' : Z) (me me' : FetchJson) (st : ClientState) :
  reachesNetwork force t st = true ->
  t <> 0 ->
  t' - t < 5 * 60 * 1000 ->
  reachesNetwork false t' (checkAuth force t me st) = false
  /\ checkAuth false t' me' (checkAuth force t me st) = checkAuth force t me st.
Proof.
  intros Hreach Ht Hwin.
  assert (Hlast : lastChecked (checkAuth force t me st) = t).
  { unfold reachesNetwork in Hreach. apply negb_true_iff in Hreach.
    unfold checkAuth. rewrite Hreach. reflexivity. }
  assert (Hskip : reachesNetwork false t' (checkAuth force t me st) = false).
  { unfold reachesNetwork. rewrite Hlast. simpl.
    apply Z.eqb_neq in Ht. rewrite Ht. simpl.
    apply negb_false_iff, Z.ltb_lt. exact Hwin. }
  split; [exact Hskip|]. apply checkAuth_skips. exact Hskip.
Qed.

Lemma checkAuth_once_per_window_witness :
  reachesNetwork false (Deployment.issuedAt + 60000)
    (checkAuth true Deployment.issuedAt Deployment.meUnauthorized Deployment.freshClient)
  = false
  /\ checkAuth false (Deployment.issuedAt + 60000) Deployment.loginOk
       (checkAuth true Deployment.issuedAt Deployment.meUnauthorized Deployment.freshClient)
     = checkAuth true Deployment.issuedAt Deployment.meUnauthorized Deployment.freshClient.
Proof.
  apply (checkAuth_once_per_window true Deployment.issuedAt
           (Deployment.issuedAt + 60000) Deployment.meUnauthorized Deployment.loginOk
           Deployment.freshClient).
  - reflexivity.
  - discriminate.
  - reflexivity.
Defined.

(** A network-level error (or a body that is not JSON) leaves the user state
    and every entry of [localStorage] except the time of the last check as
    they were; the check still counts: loading ends and the time is
    recorded. *)
Theorem checkAuth_network_error_frame
    (force : bool) (t : Z) (st : ClientState) :
  client_user (checkAuth force t FetchFails st) = client_user st
  /\ (forall k, k <> LAST_CHECKED_KEY ->
                localStorage (checkAuth force t FetchFails st) !! k
                = localStorage st !! k)
  /\ pushed (checkAuth force t FetchFails st) = pushed st
  /\ (reachesNetwork force t st = true ->
      lastChecked (checkAuth force t FetchFails st) = t
      /\ isLoading (checkAuth force t FetchFails st) = false
      /\ localStorage (checkAuth force t FetchFails st) !! LAST_CHECKED_KEY
         = Some (JNum t)).
Proof.
  split; [|split; [|split]].
  - apply (checkAuth_network_error_keeps force t st USER_STORAGE_KEY). discriminate.
  - intros k Hk. apply (checkAuth_network_error_keeps force t st k Hk).
  - unfold checkAuth.
    destruct (negb force && negb (lastChecked st =? 0)
              && (t - lastChecked st <? 5 * 60 * 1000)); [reflexivity|].
    destruct (lastChecked st =? 0); reflexivity.
  - unfold reachesNetwork, checkAuth. intros H. apply negb_true_iff in H. rewrite H.
    repeat split. simpl. apply lookup_insert_eq.
Qed.

(** When [checkAuth] goes to the network, the answer decides the user state
    and the [auth_user] entry: a success answer (HTTP OK and a truthy
    [success]) stores the user of the body with the time of the check; a body
    that is [null] leaves both as they were, like a network error; every
    other answer clears both. *)
Theorem checkAuth_answer_decides
    (force : bool) (t : Z) (ok : bool) (data : Json) (st : ClientState) :
  reachesNetwork force t st = true ->
  let st' := checkAuth force t (JsonResponse ok data) st in
  match data with
  | JNull =>
      client_user st' = client_user st
      /\ localStorage st' !! USER_STORAGE_KEY = localStorage st !! USER_STORAGE_KEY
  | _ =>
      if ok && json_truthy (prop "success" data)
      then client_user st' = prop "user" data
           /\ localStorage st' !! USER_STORAGE_KEY
              = Some (cacheEntry (prop "user" data) t)
      else client_user st' = None /\ localStorage st' !! USER_STORAGE_KEY = None
  end.
Proof.
  intros Hreach st'. subst st'.
  assert (Hnull : forall ok',
             client_user (checkAuth force t (JsonResponse ok' JNull) st) = client_user st
             /\ localStorage (checkAuth force t (JsonResponse ok' JNull) st)
                  !! USER_STORAGE_KEY
                = localStorage st !! USER_STORAGE_KEY).
  { intros ok'. rewrite checkAuth_null_body_keeps.
    apply checkAuth_network_error_keeps. discriminate. }
  assert (Hother : data <> JNull ->
             if ok && json_truthy (prop "success" data)
             then client_user (checkAuth force t (JsonResponse ok data) st)
                  = prop "user" data
                  /\ localStorage (checkAuth force t (JsonResponse ok data) st)
                       !! USER_STORAGE_KEY
                     = Some (cacheEntry (prop "user" data) t)
             else client_user (checkAuth force t (JsonResponse ok data) st) = None
                  /\ localStorage (checkAuth force t (JsonResponse ok data) st)
                       !! USER_STORAGE_KEY = None).
  { intros Hdata.
    destruct (ok && json_truthy (prop "success" data)) eqn:Hok.
    - apply andb_prop in Hok as [-> Hs].
      apply checkAuth_success_stores; assumption.
    - apply checkAuth_failure_clears; assumption. }
  destruct data; first [apply Hnull | apply Hother; discriminate].
Qed.

(** After a login of [u1]: a 401 answer with a JSON object, and an answer
    whose body is [null]. *)
Lemma checkAuth_answer_decides_witness :
  (let st' := checkAuth true (Deployment.issuedAt + 1000) Deployment.meUnauthorized
                ClientFixtures.loggedIn in
   client_user st' = None /\ localStorage st' !! USER_STORAGE_KEY = None)
  /\ (let st' := checkAuth true (Deployment.issuedAt + 1000) (JsonResponse false JNull)
                   ClientFixtures.loggedIn in
      client_user st' = client_user ClientFixtures.loggedIn
      /\ localStorage st' !! USER_STORAGE_KEY
         = localStorage ClientFixtures.loggedIn !! USER_STORAGE_KEY).
Proof.
  split.
  - apply (checkAuth_answer_decides true (Deployment.issuedAt + 1000) false
             (JObj [("success", JBool false);
                    ("message", JStr "Unauthorized: Token expired")])
             ClientFixtures.loggedIn).
    reflexivity.
  - apply (checkAuth_answer_decides true (Deployment.issuedAt + 1000) false JNull
             ClientFixtures.loggedIn).
    reflexivity.
Defined.

(** [logout] clears the user state and the login cache, sends the browser to
    [/login], and resets the time of the last check, so that the next
    [checkAuth] goes to the network even without [force]; the [auth_user]
    entry that [checkAuth] writes is left in place. *)
Theorem logout_resets_client (now t : Z) (st : ClientState) :
  client_user (logout now st) = None
  /\ getAuthCache (logout now st) = None
  /\ pushed (logout now st) = Some "/login"
  /\ reachesNetwork false t (logout now st) = true
  /\ localStorage (logout now st) !! USER_STORAGE_KEY = localStorage st !! USER_STORAGE_KEY.
Proof.
  unfold logout, getAuthCache, reachesNetwork. simpl.
  repeat split.
  - apply lookup_delete_eq.
  - apply lookup_delete_ne. discriminate.
Qed.

(** [login] ends with [isLoading] false on every path.  A failed login (no
    answer, or a falsy [success]) reports failure and leaves user state and
    [localStorage] as they were; a successful one reports success, sets the
    user of the body and, when that user is truthy, caches it with the time. *)
Theorem login_outcomes (now : Z) (res : FetchJson) (st : ClientState) :
  isLoading (fst (login now res st)) = false
  /\ match res with
     | JsonResponse _ data =>
         if json_truthy (prop "success" data)
         then snd (login now res st) = true
              /\ client_user (fst (login now res st)) = prop "user" data
              /\ getAuthCache (fst (login now res st))
                 = (if json_truthy (prop "user" data)
                    then Some (cacheEntry (prop "user" data) now)
                    else None)
         else snd (login now res st) = false
              /\ client_user (fst (login now res st)) = client_user st
              /\ localStorage (fst (login now res st)) = localStorage st
     | FetchFails =>
         snd (login now res st) = false
         /\ client_user (fst (login now res st)) = client_user st
         /\ localStorage (fst (login now res st)) = localStorage st
     end.
Proof.
  unfold login, getAuthCache. destruct res as [ok data|]; simpl.
  - destruct (json_truthy (prop "success" data)); simpl; [|repeat split].
    repeat split. unfold setAuthCache.
    destruct (json_truthy (prop "user" data)); simpl.
    + apply lookup_insert_eq.
    + apply lookup_delete_eq.
  - repeat split.
Qed.

(** [setAuthCache] then [getAuthCache]: a truthy user comes back wrapped
    with the time of the write, however old the entry is when read; [null]
    and every other falsy value remove the entry; no other key of
    [localStorage] is touched. *)
Theorem auth_cache_round_trip (now : Z) (userData : option Json) (st : ClientState) :
  getAuthCache (setAuthCache now userData st)
  = (if json_truthy userData then Some (cacheEntry userData now) else None)
  /\ (forall k, k <> AUTH_CACHE_KEY ->
                localStorage (setAuthCache now userData st) !! k = localStorage st !! k)
  /\ client_user (setAuthCache now userData st) = client_user st.
Proof.
  unfold getAuthCache, setAuthCache.
  destruct (json_truthy userData); simpl; repeat split.
  - apply lookup_insert_eq.
  - intros k Hk. apply lookup_insert_ne. intros Heq. apply Hk. symmetry. exact Heq.
  - apply lookup_delete_eq.
  - intros k Hk. apply lookup_delete_ne. intros Heq. apply Hk. symmetry. exact Heq.
Qed.

Lemma requiresAuth_absolute (path : string) :
  JS.startsWith path "/" = true -> requiresAuth path = false.
Proof.
  intros Habs. unfold requiresAuth.
  destruct (negb (JS.truthy path)); [reflexivity|].
  cbn [existsb]. rewrite Habs, orb_true_r. reflexivity.
Qed.

(** [requiresAuth] answers [false] for the empty path and for every path
    that begins with a slash: the entry ['/'] of its public list is matched
    with [startsWith] and so matches them all. *)
Theorem requiresAuth_false_on_absolute_paths (path : string) :
  path = "" \/ JS.startsWith path "/" = true ->
  requiresAuth path = false.
Proof.
  intros [-> | Habs]; [reflexivity | apply requiresAuth_absolute, Habs].
Qed.

Lemma requiresAuth_witness : requiresAuth "/dashboard" = false.
Proof.
  apply (requiresAuth_false_on_absolute_paths "/dashboard").
  right. reflexivity.
Defined.

(** On a path that begins with a slash [handleAuthRedirect] either leaves
    the router alone or sends a signed-in user from a login, register or
    [/auth/] page to ['/']: it never sends anybody to [/login]. *)
Theorem handleAuthRedirect_never_to_login
    (now : Z) (path : string) (st : ClientState) (refs : RedirectRefs) :
  JS.startsWith path "/" = true ->
  fst (handleAuthRedirect now path st refs) = st
  \/ (fst (handleAuthRedirect now path st refs) = router_push "/" st
      /\ isAuthenticated st = true
      /\ isLoading st = false
      /\ 1000 <= now - lastRedirectTimeRef refs
      /\ lastRedirectTimeRef (snd (handleAuthRedirect now path st refs)) = now).
Proof.
  intros Habs. unfold handleAuthRedirect.
  rewrite (requiresAuth_absolute path Habs).
  destruct (negb (JS.truthy path)); [left; reflexivity|].
  destruct (isLoading st) eqn:Hload; [left; reflexivity|].
  destruct (String.eqb path (lastPathRef refs)); [left; reflexivity|].
  destruct (now - lastRedirectTimeRef refs <? 1000) eqn:Hcool; [left; reflexivity|].
  apply Z.ltb_ge in Hcool.
  destruct (isAuthenticated st) eqn:Hauth; simpl.
  - destruct (_ || _); [right; repeat split; assumption | left; reflexivity].
  - left. reflexivity.
Qed.

(** An anonymous visitor of [/dashboard], after the initial check. *)
Lemma handleAuthRedirect_witness :
  fst (handleAuthRedirect (Deployment.issuedAt + 5000) "/dashboard"
         ClientFixtures.checkedAnonymous ClientFixtures.noRefs)
  = ClientFixtures.checkedAnonymous
  \/ (fst (handleAuthRedirect (Deployment.issuedAt + 5000) "/dashboard"
             ClientFixtures.checkedAnonymous ClientFixtures.noRefs)
      = router_push "/" ClientFixtures.checkedAnonymous
      /\ isAuthenticated ClientFixtures.checkedAnonymous = true
      /\ isLoading ClientFixtures.checkedAnonymous = false
      /\ 1000 <= (Deployment.issuedAt + 5000)
                 - lastRedirectTimeRef ClientFixtures.noRefs
      /\ lastRedirectTimeRef
           (snd (handleAuthRedirect (Deployment.issuedAt + 5000) "/dashboard"
                   ClientFixtures.checkedAnonymous ClientFixtures.noRefs))
         = Deployment.issuedAt + 5000).
Proof.
  apply (handleAuthRedirect_never_to_login (Deployment.issuedAt + 5000) "/dashboard"
           ClientFixtures.checkedAnonymous ClientFixtures.noRefs).
  reflexivity.
Defined.

(** ** The [ProtectedRoute] component *)

(** What [ProtectedRoute] renders and where it sends the browser go
    together: the spinner comes without redirect; a blank render always
    comes with a redirect, to the login page for an anonymous visitor and to
    ['/'] for a signed-in one who is not the required administrator; the
    children are rendered only for a signed-in visitor, an administrator
    where [requiredRole] is ['admin'], and then the only redirect possible is
    that of an administrator on a [/user] page to [/admin]. *)
Theorem ProtectedRoute_render_and_redirect
    (encodeURIComponent : string -> string) (requiredRole : RequiredRole)
    (redirectTo : option string) (pathname_ : string) (st : ClientState) :
  match ProtectedRoute_render requiredRole st with
  | Spinner =>
      isLoading st = true
      /\ ProtectedRoute_effect encodeURIComponent requiredRole redirectTo pathname_ st
         = None
  | Nothing =>
      (isAuthenticated st = false
       /\ exists q,
            ProtectedRoute_effect encodeURIComponent requiredRole redirectTo pathname_ st
            = Some ("/login" +:+ q))
      \/ (isAuthenticated st = true /\ isAdmin st = false /\ requiredRole = RoleAdmin
          /\ ProtectedRoute_effect encodeURIComponent requiredRole redirectTo pathname_ st
             = Some "/")
  | Children =>
      isAuthenticated st = true
      /\ (requiredRole = RoleAdmin -> isAdmin st = true)
      /\ (ProtectedRoute_effect encodeURIComponent requiredRole redirectTo pathname_ st
          = None
          \/ (ProtectedRoute_effect encodeURIComponent requiredRole redirectTo pathname_ st
              = Some "/admin"
              /\ requiredRole = RoleUser /\ isAdmin st = true
              /\ JS.startsWith pathname_ "/user" = true))
  end.
Proof.
  unfold ProtectedRoute_render, ProtectedRoute_effect.
  destruct (isLoading st); cbn -[JS.startsWith]; [split; reflexivity|].
  destruct (isAuthenticated st) eqn:Hauth; cbn -[JS.startsWith].
  - destruct requiredRole; cbn -[JS.startsWith].
    + destruct (isAdmin st) eqn:Hadm; cbn -[JS.startsWith].
      * split; [reflexivity|]. split; [reflexivity|]. left. reflexivity.
      * right. repeat split.
    + split; [reflexivity|]. split; [discriminate|].
      destruct (isAdmin st) eqn:Hadm; cbn -[JS.startsWith]; [|left; reflexivity].
      destruct (JS.startsWith pathname_ "/user") eqn:Hu; [|left; reflexivity].
      right. repeat split.
  - left. split; [reflexivity|]. eexists. reflexivity.
Qed.

(** ** [POST /api/auth/login] *)

(** An unknown username and a wrong password get the same answer, status
    401 with one message and no cookie: the answer does not tell whether the
    account exists. *)
Theorem login_failures_look_alike
    (env : ProcessEnv) (findByUsername : string -> StoreOutcome)
    (comparePassword : string -> option string -> bool)
    (generateToken : string -> Z -> string) (now : Z) (uname pw : string) :
  JS.truthy uname = true ->
  JS.truthy pw = true ->
  findByUsername uname = NotFound
  \/ (exists u, findByUsername uname = Found u
                /\ comparePassword pw (password u) = false) ->
  login_POST env findByUsername comparePassword generateToken now (Some uname) (Some pw)
  = NextResponse.json
      (JObj [("success", JBool false);
             ("message", JStr "Tên đăng nhập hoặc mật khẩu không đúng")])
      401.
Proof.
  intros Hu Hp H. unfold login_POST. rewrite Hu, Hp. simpl.
  destruct H as [-> | (u & -> & Hcmp)]; [reflexivity|].
  rewrite Hcmp. reflexivity.
Qed.

Lemma login_failures_witness :
  login_POST Deployment.production Deployment.findByUsername Deployment.comparePassword
    Deployment.generateToken Deployment.issuedAt (Some "nobody") (Some "Test@12345")
  = NextResponse.json
      (JObj [("success", JBool false);
             ("message", JStr "Tên đăng nhập hoặc mật khẩu không đúng")])
      401
  /\ login_POST Deployment.production Deployment.findByUsername Deployment.comparePassword
       Deployment.generateToken Deployment.issuedAt (Some "u1") (Some "wrong")
     = NextResponse.json
         (JObj [("success", JBool false);
                ("message", JStr "Tên đăng nhập hoặc mật khẩu không đúng")])
         401.
Proof.
  split.
  - apply (login_failures_look_alike Deployment.production Deployment.findByUsername
             Deployment.comparePassword Deployment.generateToken Deployment.issuedAt
             "nobody" "Test@12345"); [reflexivity | reflexivity | left; reflexivity].
  - apply (login_failures_look_alike Deployment.production Deployment.findByUsername
             Deployment.comparePassword Deployment.generateToken Deployment.issuedAt
             "u1" "wrong"); [reflexivity | reflexivity |].
    right. exists Deployment.u1. split; reflexivity.
Defined.

(** Login and [GET /api/auth/me] compose: when the codec reads back the
    token it issued, the cookie that a successful login of a user of role
    [user] sets opens [/api/auth/me] for that user at every instant up to
    seven days after the login, and the cookie's [maxAge] is those seven
    days in seconds. *)
Theorem login_cookie_opens_me
    (env : ProcessEnv) (findByUsername findOne : string -> StoreOutcome)
    (comparePassword : string -> option string -> bool)
    (generateToken : string -> Z -> string) (parseToken : string -> ParseOutcome)
    (t0 t1 : Z) (uname pw : string) (u : User) :
  JS.truthy uname = true ->
  JS.truthy pw = true ->
  findByUsername uname = Found u ->
  comparePassword pw (password u) = true ->
  role u = Some "user" ->
  findOne (_id u) = Found u ->
  JS.truthy (generateToken (_id u) t0) = true ->
  parseToken (generateToken (_id u) t0)
    = Parsed {| userId := _id u; timestamp := t0 |} ->
  t1 - t0 <= TOKEN_MAX_AGE_MS ->
  exists c,
    res_cookies (login_POST env findByUsername comparePassword generateToken t0
                   (Some uname) (Some pw)) !! "token" = Some c
    /\ (cookie_options c).(maxAge) = Some 604800
    /\ 604800 * 1000 = TOKEN_MAX_AGE_MS
    /\ forall r, cookies r !! "token" = Some (cookie_value c) ->
                 me_GET env parseToken findOne t1 r
                 = NextResponse.json
                     (JObj [("success", JBool true);
                            ("user", JObj [("id", JStr (_id u));
                                           ("username", JStr (username u));
                                           ("role", JStr "user")])])
                     200.
Proof.
  intros Hu Hp Hfound Hcmp Hrole Hfind Htruthy Hparse Hage.
  exists {| cookie_value := generateToken (_id u) t0;
            cookie_options := tokenCookieOptions env |}.
  split; [|split; [reflexivity | split; [reflexivity|]]].
  - unfold login_POST. rewrite Hu, Hp, Hfound, Hcmp. simpl.
    destruct (negb (isProduction env)); simpl.
    + rewrite lookup_insert_ne by discriminate. apply lookup_insert_eq.
    + apply lookup_insert_eq.
  - intros r Hc. simpl in Hc.
    rewrite (me_GET_valid_token env parseToken findOne t1 r _ _ u
               Hc Htruthy Hparse Hage Hfind Hrole).
    unfold userResponse. simpl. rewrite Hrole. reflexivity.
Qed.

Lemma login_cookie_witness :
  exists c,
    res_cookies (login_POST Deployment.production Deployment.findByUsername
                   Deployment.comparePassword Deployment.generateToken
                   Deployment.issuedAt (Some "u1") (Some "Test@12345")) !! "token"
    = Some c
    /\ (cookie_options c).(maxAge) = Some 604800
    /\ 604800 * 1000 = TOKEN_MAX_AGE_MS
    /\ forall r, cookies r !! "token" = Some (cookie_value c) ->
                 me_GET Deployment.production Deployment.parseToken Deployment.findOne
                   Fixtures.lastValidInstant r
                 = NextResponse.json
                     (JObj [("success", JBool true);
                            ("user", JObj [("id", JStr (_id Deployment.u1));
                                           ("username", JStr (username Deployment.u1));
                                           ("role", JStr "user")])])
                     200.
Proof.
  apply (login_cookie_opens_me Deployment.production Deployment.findByUsername
           Deployment.findOne Deployment.comparePassword Deployment.generateToken
           Deployment.parseToken Deployment.issuedAt Fixtures.lastValidInstant
           "u1" "Test@12345" Deployment.u1);
    vm_compute; first [reflexivity | discriminate].
Defined.

(** ** [POST /api/register] *)

Section RegisterFacts.

Variable env : ProcessEnv.
Variable normalize : string -> string.
Variable hashPassword : string -> Outcome string.
Variable generateToken : string -> Z -> string.
Variable now : Z.
Variable insertOne : Outcome (option string).

#[local] Abbreviation register :=
  (register_POST env normalize hashPassword generateToken now insertOne).

(** The two kinds of outcome of the handler. *)
Lemma register_cases (body_ : Outcome Credentials) (db : Database) :
  (snd (register body_ db) = db
   /\ res_cookies (fst (register body_ db)) = ∅
   /\ (status (fst (register body_ db)) = 400
       \/ status (fst (register body_ db)) = 500))
  \/ (exists users uname pw id hashed,
        db = Db users
        /\ body_ = Ok {| cred_username := Some uname; cred_password := Some pw |}
        /\ insertOne = Ok (Some id)
        /\ hashPassword pw = Ok hashed
        /\ (3 <= JS.length uname)%nat /\ (6 <= JS.length pw)%nat
        /\ findByUsernameIn users (normalize uname) = NotFound
        /\ register body_ db
           = (NextResponse.cookies_set "token" (generateToken id now)
                (registerCookieOptions env)
                (NextResponse.json
                   (JObj [("success", JBool true);
                          ("message", JStr "Đăng ký thành công!");
                          ("user", JObj [("username", JStr (normalize uname));
                                         ("role", JStr "user");
                                         ("_id", JStr id)])])
                   200),
              Db (users ++ [registered normalize id uname hashed]))).
Proof.
  unfold register_POST.
  destruct body_ as [[ [uname|] [pw|] ]|t]; simpl;
    try (left; repeat split; first [left; reflexivity | right; reflexivity]).
  destruct (negb (JS.truthy uname) || negb (JS.truthy pw)); simpl;
    [left; repeat split; left; reflexivity|].
  destruct (Nat.ltb_spec (JS.length uname) 3) as [Hu|Hu]; simpl;
    [left; repeat split; left; reflexivity|].
  destruct (Nat.ltb_spec (JS.length pw) 6) as [Hp|Hp]; simpl;
    [left; repeat split; left; reflexivity|].
  destruct db as [users| |t]; try (left; repeat split; right; reflexivity).
  destruct (findByUsernameIn users (normalize uname)) eqn:Hfind;
    try (left; repeat split; first [left; reflexivity | right; reflexivity]).
  destruct (hashPassword pw) as [hashed|t] eqn:Hhash;
    [|left; repeat split; right; reflexivity].
  destruct insertOne as [[id|]|t]; try (left; repeat split; right; reflexivity).
  right. exists users, uname, pw, id, hashed. repeat split; assumption.
Qed.

End RegisterFacts.


Lemma findByUsernameIn_not_found (users : list User) (name : string) :
  findByUsernameIn users name = NotFound -> ~ In name (map username users).
Proof.
  unfold findByUsernameIn.
  destruct (List.find _ users) as [v|] eqn:Hfind; [discriminate|].
  intros _ Hin. apply in_map_iff in Hin as (u & Hname & Hin).
  pose proof (find_none _ _ Hfind u Hin) as Hneq. simpl in Hneq.
  rewrite Hname, String.eqb_refl in Hneq. discriminate.
Qed.


(** Registration either changes nothing (the collection is as before, no
    cookie is set, the status is 400 or 500) or appends exactly one document
    to the collection: role [user], the normalised username, the hash of the
    password; the answer is then 200, carries the token of the new identifier
    in the [token] cookie, and its [user] object has no [password]. *)
Theorem register_outcomes
    (env : ProcessEnv) (normalize : string -> string)
    (hashPassword : string -> Outcome string)
    (generateToken : string -> Z -> string) (now : Z)
    (insertOne : Outcome (option string))
    (body_ : Outcome Credentials) (db : Database) :
  let res := register_POST env normalize hashPassword generateToken now insertOne
               body_ db in
  (snd res = db /\ res_cookies (fst res) = ∅
   /\ (status (fst res) = 400 \/ status (fst res) = 500))
  \/ (exists users uname pw id hashed,
        db = Db users
        /\ body_ = Ok {| cred_username := Some uname; cred_password := Some pw |}
        /\ hashPassword pw = Ok hashed
        /\ snd res = Db (users ++ [{| _id := id; username := normalize uname;
                                      role := Some "user";
                                      password := Some hashed |}])
        /\ status (fst res) = 200
        /\ cookie_value <$> res_cookies (fst res) !! "token"
           = Some (generateToken id now)
        /\ (body (fst res) ≫= prop "user") ≫= prop "password" = None).
Proof.
  intros res. subst res.
  destruct (register_cases env normalize hashPassword generateToken now insertOne
              body_ db)
    as [H | (users & uname & pw & id & hashed & Hdb & Hbody & _ & Hhash & _ & _ & _ & Heq)].
  - left. exact H.
  - right. exists users, uname, pw, id, hashed. rewrite Heq.
    split; [exact Hdb|]. split; [exact Hbody|]. split; [exact Hhash|]. repeat split.
Qed.

(** Registration keeps the usernames of the collection pairwise different
    and keeps every document that was there. *)
Theorem register_keeps_usernames_unique
    (env : ProcessEnv) (normalize : string -> string)
    (hashPassword : string -> Outcome string)
    (generateToken : string -> Z -> string) (now : Z)
    (insertOne : Outcome (option string))
    (body_ : Outcome Credentials) (users : list User) :
  NoDup (map username users) ->
  exists users',
    snd (register_POST env normalize hashPassword generateToken now insertOne
           body_ (Db users)) = Db users'
    /\ NoDup (map username users')
    /\ (forall u, In u users -> In u users').
Proof.
  intros Hnodup.
  destruct (register_cases env normalize hashPassword generateToken now insertOne
              body_ (Db users))
    as [(Hsame & _)
       | (users0 & uname & pw & id & hashed & Hdb & _ & _ & _ & _ & _ & Hfind & Heq)].
  - exists users. rewrite Hsame. repeat split; [exact Hnodup | tauto].
  - injection Hdb as <-. rewrite Heq. simpl.
    eexists. split; [reflexivity|]. split.
    + rewrite map_app. simpl.
      apply NoDup_app. split; [exact Hnodup|]. split.
      * intros x Hx Hin. apply list_elem_of_In in Hx.
        apply list_elem_of_In in Hin. destruct Hin as [<- | []].
        exact (findByUsernameIn_not_found _ _ Hfind Hx).
      * apply NoDup_cons. split; [apply not_elem_of_nil | apply NoDup_nil_2].
    + intros u Hin. apply in_or_app. left. exact Hin.
Qed.

Lemma register_unique_witness :
  exists users',
    snd (register_POST Deployment.production RegisterFixtures.normalize
           RegisterFixtures.hashPassword Deployment.generateToken Deployment.issuedAt
           (Ok (Some RegisterFixtures.newId)) RegisterFixtures.aliceBody
           (Db Deployment.users)) = Db users'
    /\ NoDup (map username users')
    /\ (forall u, In u Deployment.users -> In u users').
Proof.
  apply (register_keeps_usernames_unique Deployment.production
           RegisterFixtures.normalize RegisterFixtures.hashPassword
           Deployment.generateToken Deployment.issuedAt
           (Ok (Some RegisterFixtures.newId))
           RegisterFixtures.aliceBody Deployment.users).
  apply NoDup_singleton.
Defined.





(** ** Handlers that read the [Authorization] header themselves *)

(** [split(' ')[1]] takes the second word of the header and never looks at
    the first: any scheme word does as well as [Bearer], and what follows a
    second space is dropped. *)
Theorem secondWord_ignores_scheme (scheme tok rest : string) :
  JS.contains " " scheme = false ->
  JS.contains " " tok = false ->
  secondWord (Some (scheme +:+ " " +:+ tok)) = Some tok
  /\ secondWord (Some (scheme +:+ " " +:+ tok +:+ " " +:+ rest)) = Some tok
  /\ secondWord (Some scheme) = None.
Proof.
  intros Hs Ht. unfold secondWord.
  change (scheme +:+ " " +:+ tok) with (scheme +:+ String " " tok).
  change (scheme +:+ " " +:+ tok +:+ " " +:+ rest)
    with (scheme +:+ String " " (tok +:+ String " " rest)).
  rewrite !(split_first_field _ _ _ Hs), (split_first_field _ _ _ Ht),
    (split_without_separator _ _ Ht), (split_without_separator _ _ Hs).
  repeat split.
Qed.

Lemma secondWord_witness :
  secondWord (Some ("Basic" +:+ " " +:+ "u1-token")) = Some "u1-token"
  /\ secondWord (Some ("Basic" +:+ " " +:+ "u1-token" +:+ " " +:+ "x")) = Some "u1-token"
  /\ secondWord (Some "Basic") = None.
Proof.
  apply (secondWord_ignores_scheme "Basic" "u1-token" "x"); reflexivity.
Defined.

(** ** [POST /api/upload-verification] *)

(** What the upload handler writes, by answer.  Every answer other than 200
    and 500 writes nothing.  A 200 answer comes from a verified token and a
    file of an allowed type of at most 5 MB, and writes the blob and then
    the user's document: field [verification.cccdFront] when the form's
    [type] is ['front'], [verification.cccdBack] for every other value.  A
    500 answer writes nothing or leaves the blob stored without a document
    pointing to it. *)
Theorem upload_writes
    (verifyToken : string -> VerifyOutcome) (put : string -> File -> Outcome string)
    (updateOne : string -> string -> string -> option Thrown) (now : Z)
    (authorization : option string) (form : Outcome UploadForm) :
  let res := upload_POST verifyToken put updateOne now authorization form in
  ((status (fst res) = 401 \/ status (fst res) = 400) /\ snd res = [])
  \/ (status (fst res) = 500
      /\ (snd res = [] \/ exists p f, snd res = [BlobPut p f]))
  \/ (exists token userId file type_ blobUrl,
        secondWord authorization = Some token
        /\ verifyToken token = Verified userId
        /\ form = Ok {| form_file := Some file; form_type := Some type_ |}
        /\ JS.includes ALLOWED_FILE_TYPES (file_type file) = true
        /\ file_size file <= MAX_FILE_SIZE
        /\ put (uploadPathname now userId type_ file) file = Ok blobUrl
        /\ status (fst res) = 200
        /\ snd res
           = [BlobPut (uploadPathname now userId type_ file) file;
              SetVerificationImage userId
                (if String.eqb type_ "front"
                 then "verification.cccdFront" else "verification.cccdBack")
                blobUrl]).
Proof.
  intros res. subst res. unfold upload_POST.
  destruct (secondWord authorization) as [token_|] eqn:Htok;
    [|left; split; [left|]; reflexivity].
  destruct (JS.truthy token_); cbn [negb]; [|left; split; [left|]; reflexivity].
  destruct (verifyToken token_) as [userId_| |t] eqn:Hver;
    [|left; split; [left|]; reflexivity
     |right; left; split; [|left]; reflexivity].
  destruct form as [[ [file|] [type_|] ]|t];
    try (left; split; [right|]; reflexivity);
    [|right; left; split; [|left]; reflexivity].
  cbn [form_file form_type].
  destruct (JS.truthy type_); cbn [negb]; [|left; split; [right|]; reflexivity].
  destruct (JS.includes ALLOWED_FILE_TYPES (file_type file)) eqn:Htype; cbn [negb];
    [|left; split; [right|]; reflexivity].
  destruct (file_size file >? MAX_FILE_SIZE) eqn:Hsize;
    [left; split; [right|]; reflexivity|].
  rewrite Z.gtb_ltb in Hsize. apply Z.ltb_ge in Hsize.
  destruct (put (uploadPathname now userId_ type_ file) file) as [blobUrl|t] eqn:Hput;
    [|right; left; split; [|left]; reflexivity].
  destruct (updateOne userId_ _ blobUrl) as [t|];
    [right; left; split; [reflexivity|]; right; eexists _, _; reflexivity|].
  right; right. exists token_, userId_, file, type_, blobUrl.
  repeat split; assumption.
Qed.

(** ** The change-password handler *)



(** The handler writes at most once, and only this: for the user the token
    verifies to, whose document exists, the hash of a new password whose
    [.length] is at least eight; the answer is then 200.  Every other answer
    writes nothing. *)
Theorem changePassword_writes
    (verifyToken : string -> VerifyOutcome) (findOne : string -> Outcome (option User))
    (hash : string -> Outcome string) (updateOne : string -> string -> option Thrown)
    (authorization : option string) (body_ : Outcome PasswordChange) :
  let res := changePassword_POST verifyToken findOne hash updateOne authorization body_ in
  (snd res = [] /\ status (fst res) <> 200)
  \/ (exists token userId current new hashed userData,
        secondWord authorization = Some token
        /\ verifyToken token = Verified userId
        /\ body_ = Ok {| currentPassword := Some current; newPassword := Some new |}
        /\ (8 <= JS.length new)%nat
        /\ findOne userId = Ok (Some userData)
        /\ hash new = Ok hashed
        /\ status (fst res) = 200
        /\ snd res = [SetPassword userId hashed]).
Proof.
  intros res. subst res. unfold changePassword_POST.
  destruct (secondWord authorization) as [token_|] eqn:Htok;
    [|left; split; [reflexivity | discriminate]].
  destruct (JS.truthy token_); cbn [negb];
    [|left; split; [reflexivity | discriminate]].
  destruct (verifyToken token_) as [userId_| |t] eqn:Hver;
    try (left; split; [reflexivity | discriminate]).
  destruct body_ as [[ [current|] [new_|] ]|t];
    try (left; split; [reflexivity | discriminate]).
  cbn [currentPassword newPassword].
  destruct (negb (JS.truthy current) || negb (JS.truthy new_));
    [left; split; [reflexivity | discriminate]|].
  destruct (Nat.ltb_spec (JS.length new_) 8) as [Hlen|Hlen];
    [left; split; [reflexivity | discriminate]|].
  destruct (findOne userId_) as [[userData|]|t] eqn:Hfind;
    try (left; split; [reflexivity | discriminate]).
  destruct (hash new_) as [hashed|t] eqn:Hhash;
    [|left; split; [reflexivity | discriminate]].
  destruct (updateOne userId_ hashed) as [t|];
    [left; split; [reflexivity | discriminate]|].
  right. exists token_, userId_, current, new_, hashed, userData.
  repeat split; assumption.
Qed.
